(** * A model of [powerpool/jobmanager.py]

    Shallow embedding of the network monitor ([MonitorNetwork]) and the aux
    chain monitor ([MonitorAuxChain]) of powerpool's job manager: the RPC
    endpoint pool ([down_connection], one pass of [_monitor_nodes]),
    [getblocktemplate], [generate_job] and [MonitorAuxChain.update].

    Python objects are compared by identity; a connection object carries a
    unique [conn_id] standing for that identity.  Every method returns an
    [outcome] (normal return or a raised exception) together with the state
    it leaves behind: side effects performed before an exception persist, as
    in Python. *)

From stdpp Require Import base gmap strings list.
From Stdlib Require Import ZArith Ascii String Lia.

Local Open Scope Z_scope.

(** ** Connections and exceptions *)

(** A [bitcoinrpc.AuthServiceProxy] built in [__init__]; only its identity
    and [config['poll_priority']] matter to the code modelled here. *)
Record conn := mk_conn { conn_id : Z; poll_priority : Z }.

#[global] Instance conn_eq_dec : EqDecision conn.
Proof. solve_decision. Defined.

(** The exceptions that can leave the modelled methods. *)
Inductive exn :=
  | AttributeError   (** missing attribute or method *)
  | StructError      (** [struct.pack] out of range *)
  | RPCError         (** transport / daemon failure of an RPC call *)
  | OtherError.      (** any other exception *)

#[global] Instance exn_eq_dec : EqDecision exn.
Proof. solve_decision. Defined.

Inductive outcome := Normal | Raised (e : exn).

#[global] Instance outcome_eq_dec : EqDecision outcome.
Proof. solve_decision. Defined.

(** ** The job-manager data *)

(** A decoded [getblocktemplate] response (the fields [generate_job] reads).
    Python compares two responses by value. *)
Record gbt := mk_gbt {
  gbt_height : Z;
  gbt_coinbasevalue : Z;
  gbt_bits : string;
  gbt_transactions : list string }.

#[global] Instance gbt_eq_dec : EqDecision gbt.
Proof. solve_decision. Defined.

(** An entry of [merged_work]: the dict built in [MonitorAuxChain.update].
    [merged_proxy] and [monitor] are objects, kept as identities. *)
Record aux_work := mk_aux_work {
  aw_hash : Z;
  aw_target : Z;
  aw_merged_proxy : Z;
  aw_monitor : Z }.

#[global] Instance aux_work_eq_dec : EqDecision aux_work.
Proof. solve_decision. Defined.

(** The [BlockTemplate] object stored in [jobs]. *)
Record job := mk_job {
  job_id : string;
  block_height : Z;
  job_template : gbt;
  mm_later : list (Z * aux_work) }.

(** An attribute [new_block_event] / [new_work_event] of a stratum client:
    absent ([set] raises AttributeError), a gevent [Event] with its flag, or
    an object whose [set] raises some other exception. *)
Inductive event_slot :=
  | EvMissing
  | EvPresent (flag : bool)
  | EvFaulty.

#[global] Instance event_slot_eq_dec : EqDecision event_slot.
Proof. solve_decision. Defined.

Record client := mk_client {
  new_block_event : event_slot;
  new_work_event : event_slot }.

#[global] Instance client_eq_dec : EqDecision client.
Proof. solve_decision. Defined.

(** The attributes of a [MonitorNetwork] the modelled code reads or writes;
    [clients] is [stratum_manager.clients] in iteration order, and
    [current_difficulty] holds the hex bits handed to [bits_to_difficulty]. *)
Record netmon := mk_netmon {
  live_connections : list conn;
  down_connections : list conn;
  poll_connection : option conn;
  last_gbt : option gbt;
  job_counter : Z;
  jobs : gmap string job;
  latest_job : option string;
  merged_work : gmap Z aux_work;
  clients : list (Z * client);
  current_height : option Z;
  current_difficulty : option string }.

Definition set_pool (live down : list conn) (poll : option conn) (s : netmon) :=
  mk_netmon live down poll (last_gbt s) (job_counter s) (jobs s) (latest_job s)
    (merged_work s) (clients s) (current_height s) (current_difficulty s).

(** ** Python list helpers *)

Definition py_in (c : conn) (l : list conn) : bool :=
  existsb (fun x => bool_decide (x = c)) l.

(** [list.remove(x)]: drops the first occurrence (callers check membership
    first, so the ValueError path is never taken). *)
Fixpoint remove_first (c : conn) (l : list conn) : list conn :=
  match l with
  | [] => []
  | x :: xs => if bool_decide (x = c) then xs else x :: remove_first c xs
  end.

(** [min(l, key=lambda x: x.config['poll_priority'])]: the first element of
    least priority; [None] stands for the ValueError on an empty list. *)
Definition min_by_priority (l : list conn) : option conn :=
  match l with
  | [] => None
  | x :: xs =>
      Some (fold_left (fun best y =>
              if poll_priority y <? poll_priority best then y else best) xs x)
  end.

(** ** [MonitorNetwork.down_connection]

    The argument is the caller's [self._poll_connection], so it may be
    [None]; then [conn.name] in the log call raises AttributeError. *)
Definition down_connection (conn : option conn) (s : netmon) : outcome * netmon :=
  let live :=
    match conn with
    | Some c => if py_in c (live_connections s)
                then remove_first c (live_connections s)
                else live_connections s
    | None => live_connections s
    end in
  let poll :=
    if bool_decide (poll_connection s = conn)
    then min_by_priority live
    else poll_connection s in
  match conn with
  | Some c =>
      if py_in c (down_connections s)
      then (Normal, set_pool live (down_connections s) poll s)
      else (Normal, set_pool live (down_connections s ++ [c]) poll s)
  | None => (Raised AttributeError, set_pool live (down_connections s) poll s)
  end.

(** ** One pass of [MonitorNetwork._monitor_nodes]

    [probe c] is the result of [c.getinfo()]: it answers; it raises
    [urllib3.exceptions.HTTPError] or [bitcoinrpc.CoinRPCException], which
    the loop catches ([continue]); or it raises any other exception, which
    leaves [_monitor_nodes] at once.  Each connection that answers is
    appended to the live list and to [remlist], and becomes the poll
    connection if there is none or if its priority is higher than the
    current one's; after the loop every member of [remlist] is removed from
    the down list.  When an exception leaves the loop, the connections that
    answered before it are live but still in the down list. *)
Inductive getinfo_result := GetinfoAnswers | GetinfoCaught | GetinfoRaises.

#[global] Instance getinfo_result_eq_dec : EqDecision getinfo_result.
Proof. solve_decision. Defined.

Definition answers (probe : conn -> getinfo_result) (c : conn) : bool :=
  bool_decide (probe c = GetinfoAnswers).

Fixpoint monitor_scan (probe : conn -> getinfo_result) (l : list conn)
    (live : list conn) (poll : option conn) (remlist : list conn)
    : outcome * list conn * option conn * list conn :=
  match l with
  | [] => (Normal, live, poll, remlist)
  | c :: rest =>
      match probe c with
      | GetinfoCaught => monitor_scan probe rest live poll remlist
      | GetinfoRaises => (Raised OtherError, live, poll, remlist)
      | GetinfoAnswers =>
          let poll' :=
            match poll with
            | Some p => if poll_priority p <? poll_priority c then Some c else Some p
            | None => Some c
            end in
          monitor_scan probe rest (live ++ [c]) poll' (remlist ++ [c])
      end
  end.

Definition monitor_nodes_pass (probe : conn -> getinfo_result) (s : netmon)
    : outcome * netmon :=
  match monitor_scan probe (down_connections s) (live_connections s)
          (poll_connection s) [] with
  | (Normal, live, poll, remlist) =>
      (Normal, set_pool live
                 (fold_left (fun d c => remove_first c d) remlist (down_connections s))
                 poll s)
  | (Raised e, live, poll, _) => (Raised e, set_pool live (down_connections s) poll s)
  end.

(** ** Field updates *)

Definition set_last_gbt (g : option gbt) (s : netmon) :=
  mk_netmon (live_connections s) (down_connections s) (poll_connection s) g
    (job_counter s) (jobs s) (latest_job s) (merged_work s) (clients s)
    (current_height s) (current_difficulty s).

Definition set_job_table (ctr : Z) (js : gmap string job) (latest : option string)
    (s : netmon) :=
  mk_netmon (live_connections s) (down_connections s) (poll_connection s)
    (last_gbt s) ctr js latest (merged_work s) (clients s)
    (current_height s) (current_difficulty s).

Definition set_clients (cls : list (Z * client)) (s : netmon) :=
  mk_netmon (live_connections s) (down_connections s) (poll_connection s)
    (last_gbt s) (job_counter s) (jobs s) (latest_job s) (merged_work s) cls
    (current_height s) (current_difficulty s).

Definition set_difficulty (d : option string) (s : netmon) :=
  mk_netmon (live_connections s) (down_connections s) (poll_connection s)
    (last_gbt s) (job_counter s) (jobs s) (latest_job s) (merged_work s)
    (clients s) (current_height s) d.

Definition set_merged_work (mw : gmap Z aux_work) (s : netmon) :=
  mk_netmon (live_connections s) (down_connections s) (poll_connection s)
    (last_gbt s) (job_counter s) (jobs s) (latest_job s) mw (clients s)
    (current_height s) (current_difficulty s).

(** ** Job ids: [hexlify(struct.pack("I", n))]

    Format ["I"] is a native unsigned int: four bytes, little-endian on the
    pool's hosts; a value outside [0, 2^32) makes [struct.pack] raise. *)
Definition pack_I (n : Z) : option (list Z) :=
  if (0 <=? n) && (n <? 2 ^ 32)
  then Some [n mod 256; (n / 2 ^ 8) mod 256; (n / 2 ^ 16) mod 256; (n / 2 ^ 24) mod 256]
  else None.

Definition hex_digit (d : Z) : ascii :=
  if d <? 10 then ascii_of_nat (48 + Z.to_nat d) else ascii_of_nat (87 + Z.to_nat d).

(** [binascii.hexlify]: two lowercase hex digits per byte. *)
Fixpoint hexlify (bs : list Z) : string :=
  match bs with
  | [] => EmptyString
  | b :: rest => String (hex_digit (b / 16)) (String (hex_digit (b mod 16)) (hexlify rest))
  end.

(** The id [generate_job] gives the job built at counter [n] ([n] in range). *)
Definition job_id_of (n : Z) : string :=
  match pack_I n with Some bs => hexlify bs | None => EmptyString end.

(** ** [MonitorNetwork.generate_job] *)

(** [self.jobs.clear(); self.latest_job = None] (a pushed, flushing job). *)
Definition wipe_jobs (s : netmon) : netmon :=
  set_job_table (job_counter s) ∅ None s.

(** [self._job_counter += 1; self.jobs[job_id] = bt_obj;
    self.latest_job = job_id]. *)
Definition install_job (jid : string) (bt : job) (s : netmon) : netmon :=
  set_job_table (job_counter s + 1) (<[jid := bt]> (jobs s)) (Some jid) s.

(** The fan-out [for idx, client in viewitems(clients): try: ev.set()
    except AttributeError: pass], on [new_block_event] when [flush] and on
    [new_work_event] otherwise.  Any other exception leaves the loop with the
    clients signalled so far. *)
Definition event_of (flush : bool) (c : client) : event_slot :=
  if flush then new_block_event c else new_work_event c.

Definition with_event (flush : bool) (e : event_slot) (c : client) : client :=
  if flush then mk_client e (new_work_event c) else mk_client (new_block_event c) e.

Fixpoint signal_clients (flush : bool) (cls : list (Z * client))
    : outcome * list (Z * client) :=
  match cls with
  | [] => (Normal, [])
  | (idx, c) :: rest =>
      match event_of flush c with
      | EvFaulty => (Raised OtherError, cls)
      | EvMissing =>
          let '(o, rest') := signal_clients flush rest in (o, (idx, c) :: rest')
      | EvPresent _ =>
          let '(o, rest') := signal_clients flush rest in
          (o, (idx, with_event flush (EvPresent true) c) :: rest')
      end
  end.

(** What one iteration of the fan-out does to a client whose event does not
    raise. *)
Definition signal_one (flush : bool) (ic : Z * client) : Z * client :=
  match event_of flush ic.2 with
  | EvPresent _ => (ic.1, with_event flush (EvPresent true) ic.2)
  | _ => ic
  end.

(** The [BlockTemplate] built from the cached template.  The coinbase, the
    merkle link and the aux-pow merkle tree are computed by cryptokit from
    [_last_gbt] and [merged_work]; the job keeps those inputs. *)
Definition build_job (jid : string) (g : gbt) (s : netmon) : job :=
  mk_job jid (gbt_height g) g (map_to_list (merged_work s)).

Definition generate_job (push flush new_block : bool) (s : netmon) : outcome * netmon :=
  match last_gbt s with
  | None => (Normal, s)
  | Some g =>
      match pack_I (job_counter s) with
      | None => (Raised StructError, s)
      | Some bytes =>
          let jid := hexlify bytes in
          let bt := build_job jid g s in
          let s1 := if push && flush then wipe_jobs s else s in
          let s2 := install_job jid bt s1 in
          let '(o, cls) :=
            if push then signal_clients flush (clients s2) else (Normal, clients s2) in
          let s3 := set_clients cls s2 in
          match o with
          | Raised e => (Raised e, s3)
          | Normal =>
              (Normal, if new_block then set_difficulty (Some (gbt_bits g)) s3 else s3)
          end
      end
  end.

(** ** [MonitorNetwork.getblocktemplate]

    [fetch] is the result of [self._poll_connection.getblocktemplate(...)],
    [None] when it raises.  Without a poll connection the call itself raises
    AttributeError ([None] has no [getblocktemplate]).  In both cases the
    handler then calls [self._down_connection], an attribute no class in the
    module defines, so AttributeError leaves the method with the state
    untouched. *)
Definition getblocktemplate (new_block : bool) (fetch : option gbt) (s : netmon)
    : outcome * netmon :=
  match poll_connection s, fetch with
  | Some _, Some bt =>
      let dirty := bool_decide (Some bt <> last_gbt s) in
      let s1 := if dirty then set_last_gbt (Some bt) s else s in
      if new_block || dirty then generate_job new_block new_block new_block s1
      else (Normal, s1)
  | _, _ => (Raised AttributeError, s)
  end.

(** ** [MonitorNetwork.check_height]

    [res] is the result of [self._poll_connection.getblockcount()], [None]
    when it raises (also when the poll connection is [None]). *)
Definition set_height (h : option Z) (s : netmon) :=
  mk_netmon (live_connections s) (down_connections s) (poll_connection s)
    (last_gbt s) (job_counter s) (jobs s) (latest_job s) (merged_work s)
    (clients s) h (current_difficulty s).

Definition check_height (res : option Z) (s : netmon) : outcome * bool * netmon :=
  match res with
  | None => let '(o, s') := down_connection (poll_connection s) s in (o, false, s')
  | Some h =>
      if bool_decide (current_height s <> Some h)
      then (Normal, true, set_height (Some h) s)
      else (Normal, false, s)
  end.

(** ** [MonitorAuxChain.update] *)

(** A decoded [getauxblock] answer: [int(hash, 16)], the unpacked 256-bit
    target and [chainid]. *)
Record auxblock := mk_auxblock { ab_hash : Z; ab_target : Z; ab_chainid : Z }.

(** The attributes of a [MonitorAuxChain] the update reads or writes: its own
    identity and that of its [coinserv] proxy, the configured [flush], and the
    entries of [self.state] ([aux_difficulty] holds the target handed to
    [target_to_difficulty]). *)
Record auxmon := mk_auxmon {
  aux_self : Z;
  aux_coinserv : Z;
  aux_flush : bool;
  aux_difficulty : option Z;
  aux_height : option Z;
  aux_chain_id : option Z;
  work_restarts : Z;
  new_jobs : Z }.

Definition set_aux_state (diff height chain : option Z) (restarts newj : Z)
    (a : auxmon) :=
  mk_auxmon (aux_self a) (aux_coinserv a) (aux_flush a) diff height chain restarts newj.

(** [aux_res] and [count_res] are the results of [self.coinserv.getauxblock()]
    and [self.coinserv.getblockcount()], [None] when the call fails.  The
    proxy raises bitcoinrpc's or urllib3's exceptions, which the
    [except RPCException] clauses do not catch.  The else branch calls
    [self.monitor_network.generate_job()]: no such attribute is set by
    [__init__] (the network monitor is [self.netmon]), so it raises
    AttributeError. *)
Definition aux_update (aux_res : option auxblock) (count_res : option Z)
    (a : auxmon) (s : netmon) : outcome * auxmon * netmon :=
  match poll_connection s with
  | None => (Normal, a, s)
  | Some _ =>
      match aux_res with
      | None => (Raised RPCError, a, s)
      | Some ab =>
          let new_merged_work :=
            mk_aux_work (ab_hash ab) (ab_target ab) (aux_coinserv a) (aux_self a) in
          let a1 := set_aux_state (aux_difficulty a) (aux_height a) (Some (ab_chainid ab))
                      (work_restarts a) (new_jobs a) a in
          if bool_decide (Some new_merged_work <> merged_work s !! ab_chainid ab) then
            match count_res with
            | None => (Raised RPCError, a1, s)
            | Some height =>
                let s1 := set_merged_work
                            (<[ab_chainid ab := new_merged_work]> (merged_work s)) s in
                let a2 := set_aux_state (Some (ab_target ab)) (aux_height a1)
                            (aux_chain_id a1) (work_restarts a1) (new_jobs a1) a1 in
                if bool_decide (aux_height a2 <> Some height) then
                  let a3 := set_aux_state (aux_difficulty a2) (Some height)
                              (aux_chain_id a2) (work_restarts a2) (new_jobs a2) a2 in
                  match generate_job true (aux_flush a) false s1 with
                  | (Raised e, s2) => (Raised e, a3, s2)
                  | (Normal, s2) =>
                      (Normal,
                       set_aux_state (aux_difficulty a3) (aux_height a3) (aux_chain_id a3)
                         (work_restarts a3 + 1) (new_jobs a3) a3,
                       s2)
                  end
                else (Raised AttributeError, a2, s1)
            end
          else (Normal, a1, s)
      end
  end.

(** ** Initial state and reachable states *)

(** [__init__]: one fresh proxy per entry of [main_coinservs] (given by its
    [poll_priority]), appended to the down list; everything else empty. *)
Definition init_conns (prios : list Z) : list conn :=
  imap (fun i p => mk_conn (Z.of_nat i) p) prios.

Definition init_netmon (prios : list Z) (cls : list (Z * client)) : netmon :=
  mk_netmon [] (init_conns prios) None None 0 ∅ None ∅ cls None None.

(** Every method of the job manager, run atomically, and the stratum server
    changing its client table. *)
Inductive step : netmon -> netmon -> Prop :=
  | StepDown c s o s' : down_connection c s = (o, s') -> step s s'
  | StepMonitor probe s o s' : monitor_nodes_pass probe s = (o, s') -> step s s'
  | StepCheckHeight res s o b s' : check_height res s = (o, b, s') -> step s s'
  | StepGbt nb fetch s o s' : getblocktemplate nb fetch s = (o, s') -> step s s'
  | StepGenerate p f nb s o s' : generate_job p f nb s = (o, s') -> step s s'
  | StepAux r1 r2 a s o a' s' : aux_update r1 r2 a s = (o, a', s') -> step s s'
  | StepClients cls s : step s (set_clients cls s).

Definition reachable (prios : list Z) (cls : list (Z * client)) (s : netmon) : Prop :=
  rtc step (init_netmon prios cls) s.

(** ** One iteration of [MonitorNetwork._run]

    [n_int] is [config['job_generate_int']], [i] the loop's tick counter,
    [count_res] the answer of [getblockcount] and [fetch] that of
    [getblocktemplate].  Without a poll connection the tick only sleeps.  A
    new height refreshes with [new_block=True]; otherwise a refresh happens
    once [i >= job_generate_int], after [i = 0], and [i += 1] is skipped when
    the refresh raises (the [except Exception] of the loop catches it). *)
Definition run_tick (n_int : Z) (count_res : option Z) (fetch : option gbt) (i : Z)
    (s : netmon) : Z * netmon :=
  match poll_connection s with
  | None => (i, s)
  | Some _ =>
      match check_height count_res s with
      | (Raised _, _, s1) => (i, s1)
      | (Normal, true, s1) => (i, (getblocktemplate true fetch s1).2)
      | (Normal, false, s1) =>
          if n_int <=? i then
            match getblocktemplate false fetch s1 with
            | (Normal, s2) => (1, s2)
            | (Raised _, s2) => (0, s2)
            end
          else (i + 1, s1)
      end
  end.

(** ** [MonitorNetwork.__init__] *)

Inductive init_error := InitAttributeError | InitKeyError | InitTypeError.

(** [addresses_valid]: both [get_bcaddress_version] checks of [_set_config]
    succeed; [main_coinservs]: that key of the keyword arguments ([None] when
    absent), each server given by its [poll_priority]; [merged]: the
    [merged] setting (default [None]) as the [enabled] flags of its coins.
    [_set_config] logs through [self.logger] before [__init__] has set it;
    the constructor of an enabled aux monitor reads [server.netmon], which a
    [MonitorNetwork] does not have. *)
Definition monitor_network_init (addresses_valid : bool) (main_coinservs : option (list Z))
    (merged : option (list bool)) (cls : list (Z * client)) : init_error + netmon :=
  if negb addresses_valid then inl InitAttributeError
  else
    match main_coinservs with
    | None => inl InitKeyError
    | Some [] => inl InitAttributeError
    | Some servs =>
        match merged with
        | None => inl InitTypeError
        | Some coins =>
            if existsb (fun enabled => enabled) coins then inl InitAttributeError
            else inr (init_netmon servs cls)
        end
    end.

(** ** Predicates on states *)

(** The poll connection is a live connection of highest priority, and there
    is none only when no connection is live. *)
Definition poll_is_max (live : list conn) (poll : option conn) : Prop :=
  match poll with
  | None => live = []
  | Some p => p ∈ live /\ forall e, e ∈ live -> poll_priority e <= poll_priority p
  end.

(** Every job is stored under its own id, which is the id of an earlier
    counter value, and [latest_job] names a stored job. *)
Definition jobs_inv (s : netmon) : Prop :=
  0 <= job_counter s /\
  (forall k j, jobs s !! k = Some j ->
     job_id j = k /\ exists n, 0 <= n < job_counter s /\ n < 2 ^ 32 /\ k = job_id_of n) /\
  (forall k, latest_job s = Some k -> is_Some (jobs s !! k)).

(** * Properties *)

(** ** Frame lemmas: the job and aux code leave the endpoint pool alone *)

Definition pool_of (s : netmon) := (live_connections s, down_connections s, poll_connection s).

Lemma generate_job_pool p f nb s : pool_of (generate_job p f nb s).2 = pool_of s.
Proof. unfold generate_job. repeat case_match; simplify_eq/=; reflexivity. Qed.

Lemma getblocktemplate_pool nb fetch s : pool_of (getblocktemplate nb fetch s).2 = pool_of s.
Proof.
  unfold getblocktemplate.
  destruct (poll_connection s) as [pc|], fetch as [bt|]; try reflexivity.
  destruct (bool_decide _), nb; simpl; rewrite ?generate_job_pool; reflexivity.
Qed.

Lemma aux_update_pool r1 r2 a s : pool_of (aux_update r1 r2 a s).2 = pool_of s.
Proof.
  unfold aux_update.
  repeat (case_match; simplify_eq/=); try reflexivity;
    match goal with H : generate_job _ _ _ _ = _ |- _ =>
      pose proof (f_equal (fun r => pool_of r.2) H) as Hp;
      simpl in Hp; rewrite generate_job_pool in Hp; rewrite <- Hp; reflexivity end.
Qed.

(** ** The down list never holds a connection twice *)

Lemma remove_first_sublist c l : remove_first c l `sublist_of` l.
Proof.
  induction l as [|x xs IH]; simpl; [constructor|].
  case_bool_decide; [apply sublist_cons; reflexivity | by apply sublist_skip].
Qed.

Lemma remove_first_NoDup c l : NoDup l -> NoDup (remove_first c l).
Proof. intros Hl. eapply sublist_NoDup; [exact Hl | apply remove_first_sublist]. Qed.

Lemma fold_remove_NoDup rem l :
  NoDup l -> NoDup (fold_left (fun d c => remove_first c d) rem l).
Proof.
  revert l. induction rem as [|c rem IH]; intros l Hl; simpl; [done|].
  apply IH, remove_first_NoDup, Hl.
Qed.

Lemma py_in_false c l : py_in c l = false -> c ∉ l.
Proof.
  unfold py_in. intros H Hin. apply list_elem_of_In in Hin.
  assert (existsb (fun x => bool_decide (x = c)) l = true) as Ht
    by (apply existsb_exists; exists c; split; [exact Hin | by apply bool_decide_eq_true]).
  congruence.
Qed.

Lemma down_connection_NoDup c s :
  NoDup (down_connections s) -> NoDup (down_connections (down_connection c s).2).
Proof.
  intros Hnd. unfold down_connection.
  destruct c as [c|]; simpl; [|exact Hnd].
  destruct (py_in c (down_connections s)) eqn:Hin; simpl; [exact Hnd|].
  apply NoDup_app. split; [exact Hnd|]. split; [|apply NoDup_singleton].
  intros x Hx Hx'. apply list_elem_of_singleton in Hx'. subst x.
  exact (py_in_false _ _ Hin Hx).
Qed.

Lemma monitor_nodes_pass_NoDup pr s :
  NoDup (down_connections s) -> NoDup (down_connections (monitor_nodes_pass pr s).2).
Proof.
  intros Hnd. unfold monitor_nodes_pass.
  destruct (monitor_scan _ _ _ _ _) as [[[[|e] live] poll] rem]; simpl;
    [by apply fold_remove_NoDup | exact Hnd].
Qed.

Lemma down_of_pool s s' : pool_of s' = pool_of s -> down_connections s' = down_connections s.
Proof. unfold pool_of. intros H. by simplify_eq. Qed.

Lemma step_NoDup s s' :
  step s s' -> NoDup (down_connections s) -> NoDup (down_connections s').
Proof.
  intros Hst Hnd. destruct Hst as [c s o s' H|pr s o s' H|res s o b s' H|nb fetch s o s' H
    |p f nb s o s' H|r1 r2 a s o a' s' H|cls s].
  - pose proof (down_connection_NoDup c s Hnd) as G. by rewrite H in G.
  - pose proof (monitor_nodes_pass_NoDup pr s Hnd) as G. by rewrite H in G.
  - unfold check_height in H. destruct res as [h|].
    + case_bool_decide; simplify_eq/=; done.
    + destruct (down_connection (poll_connection s) s) as [o' s''] eqn:E.
      simplify_eq. pose proof (down_connection_NoDup (poll_connection s) s Hnd) as G.
      by rewrite E in G.
  - pose proof (getblocktemplate_pool nb fetch s) as G. rewrite H in G. simpl in G.
    by rewrite (down_of_pool _ _ G).
  - pose proof (generate_job_pool p f nb s) as G. rewrite H in G. simpl in G.
    by rewrite (down_of_pool _ _ G).
  - pose proof (aux_update_pool r1 r2 a s) as G. rewrite H in G. simpl in G.
    by rewrite (down_of_pool _ _ G).
  - done.
Qed.

Lemma init_conns_NoDup prios : NoDup (init_conns prios).
Proof.
  unfold init_conns. apply NoDup_alt. intros i j x Hi Hj.
  apply list_lookup_imap_Some in Hi as (p & _ & ->).
  apply list_lookup_imap_Some in Hj as (q & _ & Hq). injection Hq. lia.
Qed.

Lemma reachable_down_NoDup prios cls s :
  reachable prios cls s -> NoDup (down_connections s).
Proof.
  unfold reachable. intros Hr.
  assert (Hgen : forall x y, rtc step x y -> NoDup (down_connections x) ->
                 NoDup (down_connections y)).
  { intros x y Hxy. induction Hxy as [x|x y z Hs _ IH]; [done|].
    intros Hx. apply IH. by eapply step_NoDup. }
  apply (Hgen _ _ Hr), init_conns_NoDup.
Qed.

Lemma py_in_true c l : c ∈ l -> py_in c l = true.
Proof.
  unfold py_in. intros Hin. apply existsb_exists. exists c.
  split; [by apply list_elem_of_In | by apply bool_decide_eq_true].
Qed.

Lemma py_in_false_iff c l : c ∉ l -> py_in c l = false.
Proof.
  intros Hn. destruct (py_in c l) eqn:E; [|done].
  unfold py_in in E. apply existsb_exists in E as (x & Hx & Hxc).
  apply bool_decide_eq_true in Hxc. subst x. by apply list_elem_of_In in Hx.
Qed.

(** ** C1 *)

(** C1 (code_bug): the pool from three configured endpoints of poll
    priorities 1, 2 and 3, all answering the probe: the probe loop makes the
    priority-3 endpoint the poll connection; when it goes down,
    [down_connection] re-elects with [min] and picks the priority-1 endpoint
    although the priority-2 endpoint is live.  The probe loop switches to a
    higher priority, the spec asks for the maximum. *)
Theorem down_connection_elects_lowest_priority :
  let s0 := init_netmon [1; 2; 3] [] in
  let s1 := (monitor_nodes_pass (fun _ => GetinfoAnswers) s0).2 in
  let s2 := (down_connection (poll_connection s1) s1).2 in
  reachable [1; 2; 3] [] s2 /\
  poll_connection s1 = Some (mk_conn 2 3) /\
  poll_connection s2 = Some (mk_conn 0 1) /\
  mk_conn 1 2 ∈ live_connections s2 /\
  poll_priority (mk_conn 0 1) < poll_priority (mk_conn 1 2).
Proof.
  intros s0 s1 s2. split.
  - unfold reachable. eapply rtc_l.
    + apply (StepMonitor (fun _ => GetinfoAnswers) s0
               (monitor_nodes_pass (fun _ => GetinfoAnswers) s0).1 s1).
      reflexivity.
    + eapply rtc_l; [|apply rtc_refl].
      apply (StepDown (poll_connection s1) s1 (down_connection (poll_connection s1) s1).1 s2).
      reflexivity.
  - vm_compute. split; [reflexivity|]. split; [reflexivity|].
    split; [|reflexivity]. apply list_elem_of_In. simpl. tauto.
Qed.

(** ** C10 *)

(** C10: [down_connection] on a connection that is already in the down list,
    not live and not the poll connection changes nothing; and in every
    reachable state the down list is duplicate-free. *)
Theorem down_connection_idempotent :
  (forall (s : netmon) (c : conn),
     c ∈ down_connections s -> c ∉ live_connections s ->
     poll_connection s <> Some c ->
     down_connection (Some c) s = (Normal, s)) /\
  (forall (prios : list Z) (cls : list (Z * client)) (s : netmon),
     reachable prios cls s -> NoDup (down_connections s)).
Proof.
  split.
  - intros s c Hd Hl Hp. unfold down_connection.
    rewrite (py_in_false_iff _ _ Hl), (py_in_true _ _ Hd).
    rewrite bool_decide_eq_false_2 by exact Hp.
    destruct s; reflexivity.
  - exact reachable_down_NoDup.
Qed.

Definition c10_conn := mk_conn 0 5.
Definition c10_state :=
  mk_netmon [mk_conn 1 7] [c10_conn] (Some (mk_conn 1 7)) None 0 ∅ None ∅ [] None None.

Lemma down_connection_idempotent_witness :
  (c10_conn ∈ down_connections c10_state /\ (c10_conn ∉ live_connections c10_state) /\
   poll_connection c10_state <> Some c10_conn) /\
  down_connection (Some c10_conn) c10_state = (Normal, c10_state) /\
  NoDup (down_connections (init_netmon [5; 7] [])).
Proof.
  assert (H1 : c10_conn ∈ down_connections c10_state) by (simpl; left).
  assert (H2 : c10_conn ∉ live_connections c10_state) by (simpl; set_solver).
  assert (H3 : poll_connection c10_state <> Some c10_conn) by discriminate.
  split; [split; [exact H1 | split; [exact H2 | exact H3]]|].
  split; [exact (proj1 down_connection_idempotent c10_state c10_conn H1 H2 H3)|].
  apply (proj2 down_connection_idempotent [5; 7] [] (init_netmon [5; 7] [])).
  apply rtc_refl.
Defined.

(** ** The client fan-out *)

Lemma signal_clients_no_fault flush (cls : list (Z * client)) :
  (forall ic, ic ∈ cls -> event_of flush ic.2 <> EvFaulty) ->
  signal_clients flush cls = (Normal, map (signal_one flush) cls).
Proof.
  induction cls as [|[i c] rest IH]; intros Hok; [reflexivity|].
  simpl. unfold signal_one at 1. simpl.
  rewrite IH by (intros ic Hic; apply Hok; by right).
  specialize (Hok (i, c) (list_elem_of_here _ _)). simpl in Hok.
  destruct (event_of flush c); [reflexivity|reflexivity|congruence].
Qed.

Lemma signal_clients_first_fault flush (pre : list (Z * client)) i c post :
  (forall ic, ic ∈ pre -> event_of flush ic.2 <> EvFaulty) ->
  event_of flush c = EvFaulty ->
  signal_clients flush (pre ++ (i, c) :: post) =
    (Raised OtherError, map (signal_one flush) pre ++ (i, c) :: post).
Proof.
  induction pre as [|[j d] rest IH]; intros Hok Hc.
  - simpl. by rewrite Hc.
  - simpl. unfold signal_one at 1. simpl.
    rewrite IH by (done || (intros ic Hic; apply Hok; by right)).
    specialize (Hok (j, d) (list_elem_of_here _ _)). simpl in Hok.
    destruct (event_of flush d); [reflexivity|reflexivity|congruence].
Qed.

Lemma pack_I_in_range n :
  0 <= n < 2 ^ 32 ->
  pack_I n = Some [n mod 256; (n / 2 ^ 8) mod 256; (n / 2 ^ 16) mod 256; (n / 2 ^ 24) mod 256].
Proof.
  intros Hn. unfold pack_I.
  replace ((0 <=? n) && (n <? 2 ^ 32)) with true; [reflexivity|].
  symmetry. apply andb_true_intro. split; [apply Z.leb_le | apply Z.ltb_lt]; lia.
Qed.

Lemma pack_I_out_of_range n : 2 ^ 32 <= n -> pack_I n = None.
Proof.
  intros Hn. unfold pack_I.
  replace ((0 <=? n) && (n <? 2 ^ 32)) with false; [reflexivity|].
  symmetry. apply andb_false_intro2, Z.ltb_ge. lia.
Qed.

Lemma generate_job_last_gbt p f nb s : last_gbt (generate_job p f nb s).2 = last_gbt s.
Proof. unfold generate_job. repeat case_match; simpl; congruence. Qed.

(** ** C2 *)

(** C2 (corrected): a pushed, flushing [generate_job] with a cached template
    and a job counter below 2^32 first wipes the job table and
    [latest_job], then installs the new job, so that the table holds exactly
    that job and [latest_job] is its id; the clients are signalled on
    [new_block_event] by the fan-out, and when no client's signal raises
    anything but AttributeError every client with a [new_block_event] has it
    set. *)
Theorem generate_job_push_flush (s : netmon) (g : gbt) (nb : bool) (o : outcome)
    (s' : netmon) :
  last_gbt s = Some g -> 0 <= job_counter s < 2 ^ 32 ->
  generate_job true true nb s = (o, s') ->
  let jid := job_id_of (job_counter s) in
  jobs (wipe_jobs s) = ∅ /\ latest_job (wipe_jobs s) = None /\
  jobs s' = jobs (install_job jid (build_job jid g s) (wipe_jobs s)) /\
  jobs s' = {[jid := build_job jid g s]} /\
  latest_job s' = Some jid /\
  clients s' = (signal_clients true (clients s)).2 /\
  ((forall ic, ic ∈ clients s -> new_block_event ic.2 <> EvFaulty) ->
     o = Normal /\ clients s' = map (signal_one true) (clients s)).
Proof.
  intros Hg Hc H jid. unfold generate_job in H. rewrite Hg, (pack_I_in_range _ Hc) in H.
  unfold jid, job_id_of. rewrite (pack_I_in_range _ Hc). simpl in H.
  destruct (signal_clients true (clients s)) as [o' cls] eqn:Hs.
  assert (Hst : s' = set_clients cls
      (install_job (hexlify [job_counter s mod 256; (job_counter s / 2 ^ 8) mod 256;
                             (job_counter s / 2 ^ 16) mod 256; (job_counter s / 2 ^ 24) mod 256])
         (build_job (hexlify [job_counter s mod 256; (job_counter s / 2 ^ 8) mod 256;
                             (job_counter s / 2 ^ 16) mod 256; (job_counter s / 2 ^ 24) mod 256])
            g s) (wipe_jobs s))
      \/ (nb = true /\ o' = Normal)).
  { destruct o', nb; inversion H; subst; auto. }
  assert (Ho : o = o') by (destruct o', nb; inversion H; reflexivity).
  assert (Hjobs_cl : jobs s' = jobs (install_job (hexlify [job_counter s mod 256; (job_counter s / 2 ^ 8) mod 256;
                             (job_counter s / 2 ^ 16) mod 256; (job_counter s / 2 ^ 24) mod 256])
         (build_job (hexlify [job_counter s mod 256; (job_counter s / 2 ^ 8) mod 256;
                             (job_counter s / 2 ^ 16) mod 256; (job_counter s / 2 ^ 24) mod 256])
            g s) (wipe_jobs s)) /\
          latest_job s' = Some (hexlify [job_counter s mod 256; (job_counter s / 2 ^ 8) mod 256;
                             (job_counter s / 2 ^ 16) mod 256; (job_counter s / 2 ^ 24) mod 256]) /\
          clients s' = cls).
  { destruct o', nb; inversion H; subst; repeat split; reflexivity. }
  destruct Hjobs_cl as (Hj & Hl & Hcl). clear Hst.
  split; [reflexivity|]. split; [reflexivity|]. split; [exact Hj|].
  split; [rewrite Hj; simpl; apply insert_empty|]. split; [exact Hl|].
  split; [by rewrite Hcl|].
  intros Hok. rewrite signal_clients_no_fault in Hs by exact Hok.
  inversion Hs; subst. auto.
Qed.

Definition c2_template := mk_gbt 100 5000000000 "1d00ffff" [].

Definition c2_clients : list (Z * client) :=
  [(0, mk_client (EvPresent false) (EvPresent false)); (1, mk_client EvMissing EvMissing)].

(** A state whose job counter has reached 2^32. *)
Definition c2_overflow_state :=
  mk_netmon [] [] None (Some c2_template) (2 ^ 32) ∅ None ∅ c2_clients None None.

(** C2, counterexample: at job counter 2^32 [struct.pack("I", ...)] raises
    before the table is touched: the table stays empty and no client is
    signalled. *)
Lemma generate_job_push_flush_counter_overflow :
  generate_job true true true c2_overflow_state = (Raised StructError, c2_overflow_state) /\
  jobs c2_overflow_state = ∅ /\
  clients c2_overflow_state = c2_clients.
Proof. split; [vm_compute; reflexivity | split; reflexivity]. Qed.

Definition c2_state :=
  mk_netmon [] [] None (Some c2_template) 0 ∅ None ∅ c2_clients None None.

Lemma generate_job_push_flush_witness :
  let r := generate_job true true true c2_state in
  latest_job r.2 = Some (job_id_of (job_counter c2_state)) /\
  clients r.2 = map (signal_one true) c2_clients.
Proof.
  intros r.
  assert (Hc : 0 <= job_counter c2_state < 2 ^ 32) by (simpl; lia).
  destruct (generate_job_push_flush c2_state c2_template true r.1 r.2 eq_refl Hc eq_refl)
    as (_ & _ & _ & _ & Hl & _ & Hok).
  split; [exact Hl|].
  apply Hok. intros ic Hic. apply list_elem_of_In in Hic. simpl in Hic.
  destruct Hic as [<-|[<-|[]]]; discriminate.
Defined.

(** ** C3 *)

Lemma getblocktemplate_caches nb bt s o s' :
  poll_connection s <> None ->
  getblocktemplate nb (Some bt) s = (o, s') -> last_gbt s' = Some bt.
Proof.
  unfold getblocktemplate. intros Hp H. destruct (poll_connection s) as [pc|]; [|congruence].
  pose proof (f_equal (fun r => last_gbt r.2) H) as G. simpl in G. rewrite <- G.
  case_bool_decide as Hd; destruct nb; simpl; rewrite ?generate_job_last_gbt;
    simpl; try reflexivity;
    destruct (decide (Some bt = last_gbt s)); [done | tauto | done | tauto].
Qed.

Lemma getblocktemplate_pool_poll nb fetch s :
  poll_connection (getblocktemplate nb fetch s).2 = poll_connection s.
Proof.
  pose proof (getblocktemplate_pool nb fetch s) as G. unfold pool_of in G. by injection G.
Qed.

(** C3: a fetch that returns the cached template, without [new_block],
    changes nothing (no job, same counter; the call returns normally, the
    AttributeError of a missing poll connection apart); in particular the
    second of two successive fetches of one template; and a call changes
    the state only when [new_block] is set or the fetched template differs
    from the cached one. *)
Theorem getblocktemplate_dedup :
  (forall (bt : gbt) (s : netmon),
     last_gbt s = Some bt ->
     getblocktemplate false (Some bt) s =
       (match poll_connection s with Some _ => Normal | None => Raised AttributeError end, s)) /\
  (forall (nb1 : bool) (bt : gbt) (s : netmon) o1 s1 o2 s2,
     getblocktemplate nb1 (Some bt) s = (o1, s1) ->
     getblocktemplate false (Some bt) s1 = (o2, s2) ->
     s2 = s1 /\ job_counter s2 = job_counter s1 /\
     (poll_connection s <> None -> o2 = Normal)) /\
  (forall (nb : bool) (fetch : option gbt) (s : netmon) o s',
     getblocktemplate nb fetch s = (o, s') -> s' <> s ->
     nb = true \/ exists bt, fetch = Some bt /\ last_gbt s <> Some bt).
Proof.
  assert (Hsame : forall (bt : gbt) (s : netmon),
     last_gbt s = Some bt ->
     getblocktemplate false (Some bt) s =
       (match poll_connection s with Some _ => Normal | None => Raised AttributeError end, s)).
  { intros bt s Hs. unfold getblocktemplate. destruct (poll_connection s); [|reflexivity].
    rewrite bool_decide_eq_false_2 by (rewrite Hs; tauto). reflexivity. }
  split; [exact Hsame|]. split.
  - intros nb1 bt s o1 s1 o2 s2 H1 H2.
    pose proof (getblocktemplate_pool_poll nb1 (Some bt) s) as Hp1. rewrite H1 in Hp1.
    simpl in Hp1.
    destruct (poll_connection s) as [pc|] eqn:Ep.
    + assert (Hc : poll_connection s <> None) by congruence.
      rewrite (Hsame bt s1 (getblocktemplate_caches _ _ _ _ _ Hc H1)) in H2.
      rewrite Hp1 in H2. inversion H2; subst. auto.
    + unfold getblocktemplate in H2. rewrite Hp1 in H2. inversion H2; subst.
      split; [done|]. split; [done|]. congruence.
  - intros nb fetch s o s' H Hne. destruct nb; [by left|right].
    unfold getblocktemplate in H.
    destruct (poll_connection s) as [pc|] eqn:Ep, fetch as [bt|];
      try (inversion H; subst; congruence).
    exists bt. split; [reflexivity|]. intros Heq.
    rewrite bool_decide_eq_false_2 in H by (rewrite Heq; tauto).
    inversion H; subst. congruence.
Qed.

Definition c3_state :=
  mk_netmon [mk_conn 0 10] [] (Some (mk_conn 0 10)) (Some c2_template) 0 ∅ None ∅
    c2_clients None None.

Lemma getblocktemplate_dedup_witness :
  getblocktemplate false (Some c2_template) c3_state = (Normal, c3_state).
Proof.
  assert (Hs : last_gbt c3_state = Some c2_template) by reflexivity.
  exact (proj1 getblocktemplate_dedup c2_template c3_state Hs).
Defined.

(** ** C4 *)

(** C4: without a cached template [generate_job] returns at once, whatever
    [push], [flush] and [new_block] are, and leaves the state unchanged. *)
Theorem generate_job_without_template (p f nb : bool) (s : netmon) :
  last_gbt s = None -> generate_job p f nb s = (Normal, s).
Proof. intros H. unfold generate_job. by rewrite H. Qed.

Lemma generate_job_without_template_witness :
  generate_job true true true (init_netmon [3] c2_clients) = (Normal, init_netmon [3] c2_clients).
Proof. apply generate_job_without_template. reflexivity. Defined.

(** ** C5 *)

Lemma generate_job_installs p f nb s g bs :
  last_gbt s = Some g -> pack_I (job_counter s) = Some bs ->
  let r := (generate_job p f nb s).2 in
  latest_job r = Some (hexlify bs) /\ job_counter r = job_counter s + 1 /\
  jobs r !! hexlify bs = Some (build_job (hexlify bs) g s).
Proof.
  intros Hg Hp r. unfold r, generate_job. rewrite Hg, Hp.
  destruct (if p then _ else _) as [o cls].
  destruct o; destruct p, f, nb; simpl; rewrite ?lookup_insert_eq; auto.
Qed.

Lemma monitor_nodes_pass_frame pr s :
  exists live down poll, (monitor_nodes_pass pr s).2 = set_pool live down poll s.
Proof.
  unfold monitor_nodes_pass.
  destruct (monitor_scan _ _ _ _ _) as [[[[|e] lv] pl] rm]; simpl; eauto.
Qed.

Definition c5_cold_start := init_netmon [5] c2_clients.

(** The cold start after one probe pass in which the endpoint answers. *)
Definition c5_probed := (monitor_nodes_pass (fun _ => GetinfoAnswers) c5_cold_start).2.

(** C5, counterexample: on cold start the job counter is 0; after the probe
    makes the endpoint the poll connection, the first tick sees a new height,
    fetches a template and installs the first job, whose id is [00000000],
    not [00000001]. *)
Lemma first_job_id_is_00000000 :
  let r := run_tick 75 (Some 100) (Some c2_template) 0 c5_probed in
  job_counter c5_cold_start = 0 /\
  latest_job r.2 = Some "00000000" /\ latest_job r.2 <> Some "00000001".
Proof. vm_compute. split; [reflexivity|]. split; [reflexivity | discriminate]. Qed.

(** C5 (corrected): a job installed at counter [n] (with [0 <= n < 2^32])
    gets the id [hexlify(struct.pack("I", n))], the four little-endian bytes
    of [n] as eight hex digits; it becomes [latest_job] and the counter is
    incremented after; at [n >= 2^32] [struct.pack] raises and nothing
    changes.  The counter starts at 0: on cold start, once a probe pass has
    set a poll connection, the first tick (which sees a new height and
    fetches a template) installs job [00000000]. *)
Theorem job_ids_from_counter :
  (forall (p f nb : bool) (s : netmon) (g : gbt) o s',
     last_gbt s = Some g -> 0 <= job_counter s < 2 ^ 32 ->
     generate_job p f nb s = (o, s') ->
     let n := job_counter s in
     let jid := hexlify [n mod 256; (n / 2 ^ 8) mod 256; (n / 2 ^ 16) mod 256;
                         (n / 2 ^ 24) mod 256] in
     latest_job s' = Some jid /\ job_counter s' = n + 1 /\
     jobs s' !! jid = Some (build_job jid g s)) /\
  (forall (p f nb : bool) (s : netmon) (g : gbt),
     last_gbt s = Some g -> 2 ^ 32 <= job_counter s ->
     generate_job p f nb s = (Raised StructError, s)) /\
  (forall (prios : list Z) (cls : list (Z * client)) (probe : conn -> getinfo_result)
          (n_int h : Z) (g : gbt),
     let s1 := (monitor_nodes_pass probe (init_netmon prios cls)).2 in
     poll_connection s1 <> None ->
     let s2 := (run_tick n_int (Some h) (Some g) 0 s1).2 in
     latest_job s2 = Some "00000000" /\ job_counter s2 = 1 /\
     is_Some (jobs s2 !! "00000000")).
Proof.
  split; [|split].
  - intros p f nb s g o s' Hg Hc H n jid.
    pose proof (generate_job_installs p f nb s g _ Hg (pack_I_in_range _ Hc)) as G.
    rewrite H in G. exact G.
  - intros p f nb s g Hg Hc. unfold generate_job. by rewrite Hg, pack_I_out_of_range.
  - intros prios cls probe n_int h g. cbv zeta.
    destruct (monitor_nodes_pass_frame probe (init_netmon prios cls)) as (lv & dn & pl & ->).
    destruct pl as [pc|]; [intros _|simpl; congruence].
    unfold run_tick, check_height. simpl.
    unfold getblocktemplate. simpl.
    pose proof (generate_job_installs true true true
      (set_last_gbt (Some g) (set_height (Some h)
         (set_pool lv dn (Some pc) (init_netmon prios cls))))
      g [0; 0; 0; 0] eq_refl eq_refl) as G.
    change (hexlify [0; 0; 0; 0]) with "00000000" in G.
    simpl in G. destruct G as (G1 & G2 & G3).
    split; [exact G1|]. split; [exact G2|]. rewrite G3. eexists; reflexivity.
Qed.

Lemma job_ids_from_counter_witness :
  let r := (generate_job false false false c2_state).2 in
  latest_job r = Some "00000000" /\ job_counter r = 1 /\
  generate_job false false false c2_overflow_state = (Raised StructError, c2_overflow_state) /\
  latest_job (run_tick 75 (Some 100) (Some c2_template) 0 c5_probed).2 = Some "00000000".
Proof.
  intros r.
  assert (Hc : 0 <= job_counter c2_state < 2 ^ 32) by (simpl; lia).
  destruct (proj1 job_ids_from_counter false false false c2_state c2_template
              (generate_job false false false c2_state).1 r eq_refl Hc eq_refl)
    as (H1 & H2 & _).
  split; [exact H1|]. split; [exact H2|]. split.
  - apply (proj1 (proj2 job_ids_from_counter) false false false c2_overflow_state c2_template);
      [reflexivity | simpl; lia].
  - exact (proj1 (proj2 (proj2 job_ids_from_counter) [5] c2_clients
                   (fun _ => GetinfoAnswers) 75 100 c2_template ltac:(vm_compute; discriminate))).
Defined.

(** ** C6 *)

Definition c6_conn := mk_conn 0 10.

Definition c6_state :=
  mk_netmon [c6_conn] [] (Some c6_conn) (Some c2_template) 4 ∅ None ∅ [] None None.

(** C6 (code_bug): when the template fetch fails, the handler calls
    [self._down_connection], which does not exist: AttributeError leaves the
    method and the failing poll endpoint stays live and poll connection,
    whereas [down_connection] (called by the sibling [check_height]) would
    have moved it to the down list. *)
Theorem getblocktemplate_fetch_failure_keeps_endpoint :
  (forall (nb : bool) (s : netmon), getblocktemplate nb None s = (Raised AttributeError, s)) /\
  (let r := getblocktemplate false None c6_state in
   live_connections r.2 = [c6_conn] /\ down_connections r.2 = [] /\
   poll_connection r.2 = Some c6_conn) /\
  (let r := down_connection (poll_connection c6_state) c6_state in
   live_connections r.2 = [] /\ down_connections r.2 = [c6_conn] /\ poll_connection r.2 = None).
Proof.
  split; [intros nb s; unfold getblocktemplate; by destruct (poll_connection s)|].
  split; vm_compute; repeat split; reflexivity.
Qed.

(** ** C7 *)

Definition c7_aux := mk_auxmon 77 78 false None (Some 5) None 0 0.
Definition c7_block := mk_auxblock 42 1000 1.

(** C7 (code_bug): new aux work at an unchanged aux height reaches
    [self.monitor_network.generate_job()]; [MonitorAuxChain] has no attribute
    [monitor_network] (the sibling branch uses [self.netmon]), so
    AttributeError is raised after [merged_work] was updated: no job is
    generated and [new_jobs] is not incremented. *)
Theorem aux_update_same_height_raises :
  let r := aux_update (Some c7_block) (Some 5) c7_aux c6_state in
  r.1.1 = Raised AttributeError /\
  new_jobs r.1.2 = 0 /\
  job_counter r.2 = job_counter c6_state /\ jobs r.2 = ∅ /\ latest_job r.2 = None /\
  merged_work r.2 !! 1 = Some (mk_aux_work 42 1000 78 77).
Proof. vm_compute. repeat split; reflexivity. Qed.

(** ** C8 *)

Definition c8_clients : list (Z * client) :=
  [(0, mk_client EvFaulty EvFaulty); (1, mk_client (EvPresent false) (EvPresent false))].

Definition c8_state :=
  mk_netmon [] [] None (Some c2_template) 0 ∅ None ∅ c8_clients None None.

(** C8, counterexample: a client whose [new_block_event.set()] raises
    something other than AttributeError aborts the fan-out: the exception
    leaves [generate_job] and the next client is not signalled. *)
Lemma fanout_stops_at_failing_client :
  let r := generate_job true true false c8_state in
  r.1 = Raised OtherError /\ clients r.2 = c8_clients.
Proof. vm_compute. split; reflexivity. Qed.

(** C8 (corrected): in the fan-out a client without the event attribute is
    skipped and the others are still signalled; the first client whose
    signal raises any other exception ends the loop: the clients before it
    are signalled, it and the ones after it are not, and the exception
    leaves [generate_job]. *)
Theorem fanout_isolates_missing_events :
  (forall (flush : bool) (cls : list (Z * client)),
     (forall ic, ic ∈ cls -> event_of flush ic.2 <> EvFaulty) ->
     signal_clients flush cls = (Normal, map (signal_one flush) cls)) /\
  (forall (flush : bool) (pre : list (Z * client)) (i : Z) (c : client) post,
     (forall ic, ic ∈ pre -> event_of flush ic.2 <> EvFaulty) ->
     event_of flush c = EvFaulty ->
     signal_clients flush (pre ++ (i, c) :: post) =
       (Raised OtherError, map (signal_one flush) pre ++ (i, c) :: post)) /\
  (forall (f nb : bool) (s : netmon) (g : gbt),
     last_gbt s = Some g -> 0 <= job_counter s < 2 ^ 32 ->
     (generate_job true f nb s).1 = (signal_clients f (clients s)).1 /\
     clients (generate_job true f nb s).2 = (signal_clients f (clients s)).2).
Proof.
  split; [exact signal_clients_no_fault|].
  split; [exact signal_clients_first_fault|].
  intros f nb s g Hg Hc. unfold generate_job. rewrite Hg, (pack_I_in_range _ Hc).
  destruct f, nb; simpl; unfold wipe_jobs, install_job, set_job_table; simpl;
    destruct (signal_clients _ (clients s)) as [[|e] cls]; split; reflexivity.
Qed.

Lemma fanout_isolates_missing_events_witness :
  signal_clients true c2_clients = (Normal, map (signal_one true) c2_clients) /\
  signal_clients true ([] ++ (0, mk_client EvFaulty EvFaulty) :: [(1, mk_client (EvPresent false) (EvPresent false))])
    = (Raised OtherError, map (signal_one true) [] ++ (0, mk_client EvFaulty EvFaulty) :: [(1, mk_client (EvPresent false) (EvPresent false))]) /\
  (generate_job true true false c8_state).1 = (signal_clients true c8_clients).1.
Proof.
  split; [|split].
  - apply (proj1 fanout_isolates_missing_events). intros ic Hic.
    apply list_elem_of_In in Hic. simpl in Hic. destruct Hic as [<-|[<-|[]]]; discriminate.
  - apply (proj1 (proj2 fanout_isolates_missing_events)); [|reflexivity].
    intros ic Hic. apply list_elem_of_In in Hic. destruct Hic.
  - exact (proj1 (proj2 (proj2 fanout_isolates_missing_events) true false c8_state c2_template
                   eq_refl ltac:(simpl; lia))).
Defined.

(** ** C9 *)

(** C9: when [getauxblock] yields the entry already stored under its chain
    id, the update leaves the network monitor (merged work, jobs, counter,
    clients) unchanged and the aux monitor's counters, height and difficulty
    too. *)
Theorem aux_update_same_work_noop (ab : auxblock) (count_res : option Z) (a : auxmon)
    (s : netmon) :
  merged_work s !! ab_chainid ab =
    Some (mk_aux_work (ab_hash ab) (ab_target ab) (aux_coinserv a) (aux_self a)) ->
  exists a', aux_update (Some ab) count_res a s = (Normal, a', s) /\
    new_jobs a' = new_jobs a /\ work_restarts a' = work_restarts a /\
    aux_height a' = aux_height a /\ aux_difficulty a' = aux_difficulty a.
Proof.
  intros Hm. unfold aux_update. destruct (poll_connection s).
  - rewrite Hm, bool_decide_eq_false_2 by tauto. eexists; repeat split.
  - exists a. repeat split.
Qed.

Definition c9_state :=
  mk_netmon [c6_conn] [] (Some c6_conn) (Some c2_template) 4 ∅ None
    {[1 := mk_aux_work 42 1000 78 77]} c2_clients None None.

Lemma aux_update_same_work_noop_witness :
  exists a', aux_update (Some c7_block) (Some 6) c7_aux c9_state = (Normal, a', c9_state) /\
    new_jobs a' = new_jobs c7_aux /\ work_restarts a' = work_restarts c7_aux /\
    aux_height a' = aux_height c7_aux /\ aux_difficulty a' = aux_difficulty c7_aux.
Proof. apply aux_update_same_work_noop. reflexivity. Defined.

(** * Further properties of the code *)

(** ** The probe loop [_monitor_nodes] *)

Lemma monitor_scan_ok pr l live poll rem :
  Forall (fun c => pr c <> GetinfoRaises) l ->
  let r := monitor_scan pr l live poll rem in
  r.1.1.1 = Normal /\ r.1.1.2 = live ++ List.filter (answers pr) l /\
  r.2 = rem ++ List.filter (answers pr) l.
Proof.
  revert live poll rem. induction l as [|c rest IH]; intros live poll rem Hl; simpl.
  - by rewrite !app_nil_r.
  - apply Forall_cons in Hl as [Hc Hl].
    destruct (pr c) eqn:E; try congruence;
      [replace (answers pr c) with true by (unfold answers; by rewrite E)
      |replace (answers pr c) with false by (unfold answers; by rewrite E)];
      simpl; match goal with |- context [monitor_scan pr rest ?a ?b ?d] =>
        destruct (IH a b d Hl) as (H1 & H2 & H3) end;
      rewrite H1, H2, H3, <- ?app_assoc; auto.
Qed.

Lemma monitor_scan_raises pr pre c post live poll rem :
  Forall (fun c => pr c <> GetinfoRaises) pre -> pr c = GetinfoRaises ->
  let r := monitor_scan pr (pre ++ c :: post) live poll rem in
  r.1.1.1 = Raised OtherError /\ r.1.1.2 = live ++ List.filter (answers pr) pre.
Proof.
  revert live poll rem. induction pre as [|x pre IH]; intros live poll rem Hl Hc; simpl.
  - rewrite Hc. simpl. by rewrite app_nil_r.
  - apply Forall_cons in Hl as [Hx Hl].
    destruct (pr x) eqn:E; try congruence;
      [replace (answers pr x) with true by (unfold answers; by rewrite E)
      |replace (answers pr x) with false by (unfold answers; by rewrite E)];
      simpl; match goal with |- context [monitor_scan pr (pre ++ c :: post) ?a ?b ?d] =>
        destruct (IH a b d Hl Hc) as (H1 & H2) end;
      rewrite H1, H2, <- ?app_assoc; auto.
Qed.

Lemma fold_remove_skip (rs : list conn) x d :
  (forall c, c ∈ rs -> c <> x) ->
  fold_left (fun d c => remove_first c d) rs (x :: d) =
  x :: fold_left (fun d c => remove_first c d) rs d.
Proof.
  revert d. induction rs as [|c rs IH]; intros d Hne; [reflexivity|]. simpl.
  rewrite bool_decide_eq_false_2.
  - apply IH. intros c' Hc'. apply Hne. by right.
  - intros Heq. apply (Hne c); [apply list_elem_of_here | symmetry; exact Heq].
Qed.

Lemma fold_remove_filter (up : conn -> bool) l :
  fold_left (fun d c => remove_first c d) (List.filter up l) l =
  List.filter (fun c => negb (up c)) l.
Proof.
  induction l as [|x xs IH]; [reflexivity|]. simpl.
  destruct (up x) eqn:Hx; simpl.
  - rewrite bool_decide_eq_true_2 by reflexivity. exact IH.
  - rewrite fold_remove_skip, IH; [reflexivity|].
    intros c Hc ->. apply list_elem_of_In, filter_In in Hc as [_ Hc]. congruence.
Qed.

(** X1: a probe pass in which every [getinfo] either answers or raises one
    of the two caught exceptions appends the answering connections, in
    order, to the live list and leaves exactly the others in the down list.
    When [getinfo] raises any other exception on connection [c], the pass
    stops there: the connections that answered before [c] are appended to
    the live list but all stay in the down list. *)
Theorem monitor_nodes_pass_moves_answering (pr : conn -> getinfo_result) (s : netmon) :
  let r := monitor_nodes_pass pr s in
  (Forall (fun c => pr c <> GetinfoRaises) (down_connections s) ->
     r.1 = Normal /\
     live_connections r.2 = live_connections s ++ List.filter (answers pr) (down_connections s) /\
     down_connections r.2 = List.filter (fun c => negb (answers pr c)) (down_connections s)) /\
  (forall pre c post,
     down_connections s = pre ++ c :: post ->
     Forall (fun c => pr c <> GetinfoRaises) pre -> pr c = GetinfoRaises ->
     r.1 = Raised OtherError /\
     live_connections r.2 = live_connections s ++ List.filter (answers pr) pre /\
     down_connections r.2 = down_connections s).
Proof.
  cbv zeta. split.
  - intros Hl. unfold monitor_nodes_pass.
    destruct (monitor_scan_ok pr _ (live_connections s) (poll_connection s) [] Hl)
      as (H1 & H2 & H3).
    destruct (monitor_scan _ _ _ _ _) as [[[o lv] pl] rm]. simpl in *. subst.
    split; [reflexivity|]. split; [reflexivity|]. apply fold_remove_filter.
  - intros pre c post Hd Hl Hc. unfold monitor_nodes_pass.
    destruct (monitor_scan_raises pr pre c post (live_connections s) (poll_connection s) []
                Hl Hc) as (H1 & H2).
    rewrite <- Hd in H1, H2.
    destruct (monitor_scan _ _ _ _ _) as [[[o lv] pl] rm]. simpl in *. subst.
    auto.
Qed.

Definition x1_probe (c : conn) : getinfo_result :=
  if conn_id c =? 0 then GetinfoAnswers
  else if conn_id c =? 1 then GetinfoCaught else GetinfoRaises.

Lemma monitor_nodes_pass_moves_answering_witness :
  let s := init_netmon [1; 2; 3] [] in
  let r := monitor_nodes_pass x1_probe s in
  r.1 = Raised OtherError /\ live_connections r.2 = [mk_conn 0 1] /\
  down_connections r.2 = down_connections s.
Proof.
  cbv zeta.
  exact (proj2 (monitor_nodes_pass_moves_answering x1_probe (init_netmon [1; 2; 3] []))
           [mk_conn 0 1; mk_conn 1 2] (mk_conn 2 3) [] eq_refl
           ltac:(repeat constructor; discriminate) eq_refl).
Defined.

Lemma monitor_scan_poll_max pr l live poll rem :
  poll_is_max live poll ->
  poll_is_max (monitor_scan pr l live poll rem).1.1.2 (monitor_scan pr l live poll rem).1.2.
Proof.
  revert live poll rem. induction l as [|c rest IH]; intros live poll rem Hinv; simpl; [done|].
  destruct (pr c); [apply IH| by apply IH | exact Hinv].
  destruct poll as [p|]; simpl in *.
  - destruct Hinv as [Hp Hmax].
    destruct (poll_priority p <? poll_priority c) eqn:Hlt; simpl.
    + apply Z.ltb_lt in Hlt. split; [apply elem_of_app; right; by left|].
      intros e He. apply elem_of_app in He as [He|He].
      * specialize (Hmax e He). lia.
      * apply list_elem_of_singleton in He. subst. lia.
    + apply Z.ltb_ge in Hlt. split; [apply elem_of_app; by left|].
      intros e He. apply elem_of_app in He as [He|He]; [by apply Hmax|].
      apply list_elem_of_singleton in He. subst. lia.
  - subst live. simpl. split; [by left|].
    intros e He. apply list_elem_of_singleton in He. subst. lia.
Qed.

(** X2: a probe pass keeps the poll connection a live connection of
    highest priority (it switches only to a strictly higher one, and takes
    the first answering connection when there is none), also when an
    exception stops the pass. *)
Theorem monitor_nodes_pass_keeps_poll_max (pr : conn -> getinfo_result) (s : netmon) :
  poll_is_max (live_connections s) (poll_connection s) ->
  poll_is_max (live_connections (monitor_nodes_pass pr s).2)
              (poll_connection (monitor_nodes_pass pr s).2).
Proof.
  intros Hinv. unfold monitor_nodes_pass.
  pose proof (monitor_scan_poll_max pr (down_connections s) _ _ [] Hinv) as G.
  destruct (monitor_scan _ _ _ _ _) as [[[[|e] lv] pl] rm]; exact G.
Qed.

Lemma monitor_nodes_pass_keeps_poll_max_witness :
  poll_is_max (live_connections (init_netmon [1; 2; 3] []))
              (poll_connection (init_netmon [1; 2; 3] [])) /\
  poll_is_max
    (live_connections (monitor_nodes_pass (fun _ => GetinfoAnswers) (init_netmon [1; 2; 3] [])).2)
    (poll_connection (monitor_nodes_pass (fun _ => GetinfoAnswers) (init_netmon [1; 2; 3] [])).2).
Proof.
  assert (H : poll_is_max (live_connections (init_netmon [1; 2; 3] []))
                          (poll_connection (init_netmon [1; 2; 3] []))) by reflexivity.
  split; [exact H|]. exact (monitor_nodes_pass_keeps_poll_max _ _ H).
Defined.

(** ** [down_connection] *)

Lemma remove_first_perm c l : c ∈ l -> l ≡ₚ c :: remove_first c l.
Proof.
  induction l as [|x xs IH]; intros Hin; [by apply elem_of_nil in Hin|]. simpl.
  case_bool_decide as Hxc; [by subst|].
  apply elem_of_cons in Hin as [->|Hin]; [done|].
  rewrite (IH Hin) at 1. apply perm_swap.
Qed.

Lemma elem_of_remove_first x c l : x ∈ remove_first c l -> x ∈ l.
Proof.
  induction l as [|y ys IH]; simpl; [done|]. case_bool_decide.
  - intros Hx. by right.
  - intros Hx. apply elem_of_cons in Hx as [->|Hx]; [left|right; by apply IH].
Qed.

Lemma remove_first_keeps x c l : x <> c -> x ∈ l -> x ∈ remove_first c l.
Proof.
  intros Hne. induction l as [|y ys IH]; intros Hin; [by apply elem_of_nil in Hin|].
  simpl. apply elem_of_cons in Hin as [->|Hin].
  - rewrite bool_decide_eq_false_2 by exact Hne. left.
  - case_bool_decide; [done|]. right. by apply IH.
Qed.

(** X3: [down_connection] on a live connection that is not yet down moves
    it to the end of the down list: no connection is lost or duplicated
    between the two lists, and the connection is no longer live when the
    live list had no duplicate. *)
Theorem down_connection_moves_live (s : netmon) (c : conn) :
  c ∈ live_connections s -> c ∉ down_connections s ->
  let r := down_connection (Some c) s in
  r.1 = Normal /\
  live_connections r.2 = remove_first c (live_connections s) /\
  down_connections r.2 = down_connections s ++ [c] /\
  live_connections r.2 ++ down_connections r.2 ≡ₚ live_connections s ++ down_connections s /\
  (NoDup (live_connections s) -> c ∉ live_connections r.2).
Proof.
  intros Hl Hd r. unfold r, down_connection.
  rewrite (py_in_true _ _ Hl), (py_in_false_iff _ _ Hd). simpl.
  split; [done|]. split; [done|]. split; [done|]. split.
  - transitivity ((c :: remove_first c (live_connections s)) ++ down_connections s).
    + rewrite app_assoc, (Permutation_app_comm _ [c]). reflexivity.
    + apply Permutation_app_tail. symmetry. by apply remove_first_perm.
  - intros Hnd. rewrite (remove_first_perm c _ Hl) in Hnd.
    by apply NoDup_cons in Hnd as [G _].
Qed.

Lemma down_connection_moves_live_witness :
  (down_connection (Some c6_conn) c6_state).1 = Normal.
Proof.
  assert (H1 : c6_conn ∈ live_connections c6_state) by (simpl; left).
  assert (H2 : c6_conn ∉ down_connections c6_state) by (simpl; apply not_elem_of_nil).
  exact (proj1 (down_connection_moves_live c6_state c6_conn H1 H2)).
Defined.

Lemma fold_min_spec (xs : list conn) (best : conn) :
  let r := fold_left (fun best y =>
             if poll_priority y <? poll_priority best then y else best) xs best in
  (r = best \/ r ∈ xs) /\ poll_priority r <= poll_priority best /\
  forall e, e ∈ xs -> poll_priority r <= poll_priority e.
Proof.
  revert best. induction xs as [|y ys IH]; intros best; simpl.
  - split; [by left|]. split; [lia|]. intros e He. by apply elem_of_nil in He.
  - destruct (poll_priority y <? poll_priority best) eqn:Hlt.
    + apply Z.ltb_lt in Hlt. destruct (IH y) as (H1 & H2 & H3).
      split; [right; apply elem_of_cons; destruct H1 as [H1|H1]; [left|right]; exact H1|].
      split; [lia|]. intros e He. apply elem_of_cons in He as [->|He]; [lia|auto].
    + apply Z.ltb_ge in Hlt. destruct (IH best) as (H1 & H2 & H3).
      split; [destruct H1 as [H1|H1]; [left; exact H1|right; apply elem_of_cons; right; exact H1]|].
      split; [lia|]. intros e He. apply elem_of_cons in He as [->|He]; [lia|auto].
Qed.

Lemma min_by_priority_spec (l : list conn) :
  match min_by_priority l with
  | None => l = []
  | Some m => m ∈ l /\ forall e, e ∈ l -> poll_priority m <= poll_priority e
  end.
Proof.
  destruct l as [|x xs]; simpl; [done|].
  destruct (fold_min_spec xs x) as (H1 & H2 & H3).
  split; [destruct H1 as [->|H1]; [left|right; exact H1]|].
  intros e He. apply elem_of_cons in He as [->|He]; [lia|auto].
Qed.

(** X4: when the poll connection goes down, the new poll connection is a
    remaining live connection of lowest poll priority, or [None] exactly
    when no live connection remains. *)
Theorem down_connection_poll_elects_min (s : netmon) (c : conn) :
  poll_connection s = Some c ->
  let r := (down_connection (Some c) s).2 in
  match poll_connection r with
  | None => live_connections r = []
  | Some m => m ∈ live_connections r /\
      forall e, e ∈ live_connections r -> poll_priority m <= poll_priority e
  end.
Proof.
  intros Hp r.
  assert (Hr : poll_connection r = min_by_priority (live_connections r)).
  { unfold r, down_connection. rewrite bool_decide_eq_true_2 by exact Hp.
    destruct (py_in c (down_connections s)); reflexivity. }
  rewrite Hr. apply min_by_priority_spec.
Qed.

Definition x4_state :=
  mk_netmon [mk_conn 0 10; mk_conn 1 7; mk_conn 2 3; mk_conn 3 5] [] (Some (mk_conn 0 10))
    None 0 ∅ None ∅ [] None None.

Lemma down_connection_poll_elects_min_witness :
  let r := (down_connection (Some (mk_conn 0 10)) x4_state).2 in
  poll_connection r = Some (mk_conn 2 3) /\
  forall e, e ∈ live_connections r -> poll_priority (mk_conn 2 3) <= poll_priority e.
Proof.
  pose proof (down_connection_poll_elects_min x4_state (mk_conn 0 10) eq_refl) as G.
  cbv zeta in *.
  assert (Hp : poll_connection (down_connection (Some (mk_conn 0 10)) x4_state).2
               = Some (mk_conn 2 3)) by (vm_compute; reflexivity).
  rewrite Hp in G. split; [exact Hp | exact (proj2 G)].
Defined.

(** X5: [down_connection] on any connection other than the poll connection
    leaves the poll connection as it is and keeps it a live connection of
    highest priority. *)
Theorem down_connection_other_keeps_poll_max (s : netmon) (c : conn) :
  poll_connection s <> Some c ->
  poll_is_max (live_connections s) (poll_connection s) ->
  let r := down_connection (Some c) s in
  r.1 = Normal /\ poll_connection r.2 = poll_connection s /\
  poll_is_max (live_connections r.2) (poll_connection r.2).
Proof.
  intros Hp Hinv r.
  assert (Hlive : forall e, e ∈ live_connections r.2 -> e ∈ live_connections s).
  { intros e. unfold r, down_connection.
    destruct (py_in c (live_connections s)), (py_in c (down_connections s));
      simpl; try apply elem_of_remove_first; auto. }
  assert (Hpoll : poll_connection r.2 = poll_connection s).
  { unfold r, down_connection. rewrite bool_decide_eq_false_2 by exact Hp.
    destruct (py_in c (down_connections s)); reflexivity. }
  assert (Hout : r.1 = Normal).
  { unfold r, down_connection. destruct (py_in c (down_connections s)); reflexivity. }
  split; [exact Hout|]. split; [exact Hpoll|]. rewrite Hpoll.
  destruct (poll_connection s) as [p|] eqn:Eps; simpl in *.
  - destruct Hinv as [Hin Hmax]. split.
    + unfold r, down_connection. rewrite bool_decide_eq_false_2 by (rewrite Eps; exact Hp).
      assert (Hpc : p <> c) by (intros ->; by apply Hp).
      destruct (py_in c (live_connections s)), (py_in c (down_connections s));
        simpl; try apply remove_first_keeps; auto.
    + intros e He. apply Hmax, Hlive, He.
  - apply elem_of_nil_inv. intros e He. apply Hlive in He.
    rewrite Hinv in He. by apply elem_of_nil in He.
Qed.

Lemma down_connection_other_keeps_poll_max_witness :
  (down_connection (Some c10_conn) c10_state).1 = Normal.
Proof.
  assert (H1 : poll_connection c10_state <> Some c10_conn) by discriminate.
  assert (H2 : poll_is_max (live_connections c10_state) (poll_connection c10_state)).
  { simpl. split; [left|]. intros e He. apply list_elem_of_singleton in He. subst. simpl. lia. }
  exact (proj1 (down_connection_other_keeps_poll_max c10_state c10_conn H1 H2)).
Defined.

(** ** [check_height] *)

Lemma py_in_elem c l : py_in c l = true -> c ∈ l.
Proof.
  unfold py_in. intros E. apply existsb_exists in E as (x & Hx & Hxc).
  apply bool_decide_eq_true in Hxc. subst x. by apply list_elem_of_In.
Qed.

Lemma down_connection_in_down c s : c ∈ down_connections (down_connection (Some c) s).2.
Proof.
  unfold down_connection. destruct (py_in c (down_connections s)) eqn:E; simpl.
  - by apply py_in_elem.
  - apply elem_of_app. right. by left.
Qed.

(** X6: [check_height] with an answer [h] records [h] and reports a new
    block exactly when the recorded height differed, so asking again with
    the same answer reports none; when [getblockcount] fails, the poll
    connection is moved to the down list and no new block is reported. *)
Theorem check_height_spec :
  (forall (s : netmon) (h : Z),
     let r := check_height (Some h) s in
     r.1.1 = Normal /\ r.1.2 = bool_decide (current_height s <> Some h) /\
     r.2 = set_height (Some h) s /\
     check_height (Some h) r.2 = (Normal, false, r.2)) /\
  (forall (s : netmon) (c : conn),
     poll_connection s = Some c ->
     let r := check_height None s in
     r.1.1 = Normal /\ r.1.2 = false /\ c ∈ down_connections r.2 /\
     current_height r.2 = current_height s).
Proof.
  split.
  - intros s h r. unfold r, check_height.
    case_bool_decide as Hne; simpl.
    + split; [done|]. split; [done|]. split; [done|].
      rewrite bool_decide_eq_false_2 by (simpl; tauto). reflexivity.
    + assert (Heq : current_height s = Some h) by (destruct (decide (current_height s = Some h)); tauto).
      split; [done|]. split; [done|]. split; [destruct s; simpl in *; by subst|].
      rewrite bool_decide_eq_false_2 by tauto. reflexivity.
  - intros s c Hp r. unfold r, check_height. rewrite Hp.
    pose proof (down_connection_in_down c s) as Hin.
    assert (Ho : (down_connection (Some c) s).1 = Normal)
      by (unfold down_connection; destruct (py_in c (down_connections s)); reflexivity).
    destruct (down_connection (Some c) s) as [o s'] eqn:E. simpl in *.
    split; [exact Ho|]. split; [done|]. split; [exact Hin|].
    unfold down_connection in E. destruct (py_in c (down_connections s)); by inversion E.
Qed.

Lemma check_height_spec_witness :
  (check_height None c6_state).1.2 = false.
Proof. exact (proj1 (proj2 (proj2 check_height_spec c6_state c6_conn eq_refl))). Defined.

(** ** [generate_job] without a flush *)

Lemma signal_clients_keeps_other flush (cls : list (Z * client)) :
  map (fun ic => (ic.1, event_of (negb flush) ic.2)) (signal_clients flush cls).2 =
  map (fun ic => (ic.1, event_of (negb flush) ic.2)) cls.
Proof.
  induction cls as [|[i c] rest IH]; [reflexivity|]. simpl.
  destruct (event_of flush c) eqn:E; simpl; [| |reflexivity].
  all: destruct (signal_clients flush rest) as [o rest'] eqn:Er; simpl in *;
    rewrite IH; destruct flush; reflexivity.
Qed.

(** X7: a job generated without [push] is added beside the existing jobs,
    becomes [latest_job] and signals no client; [flush] has no effect
    without [push]. *)
Theorem generate_job_no_push (f nb : bool) (s : netmon) (g : gbt) :
  last_gbt s = Some g -> 0 <= job_counter s < 2 ^ 32 ->
  let jid := job_id_of (job_counter s) in
  let r := generate_job false f nb s in
  r.1 = Normal /\ jobs r.2 = <[jid := build_job jid g s]> (jobs s) /\
  latest_job r.2 = Some jid /\ clients r.2 = clients s /\
  r = generate_job false false nb s.
Proof.
  intros Hg Hc jid r. unfold r, jid, job_id_of, generate_job.
  rewrite Hg, (pack_I_in_range _ Hc). destruct f, nb; simpl; repeat split.
Qed.

Lemma generate_job_no_push_witness :
  (generate_job false true false c2_state).1 = Normal.
Proof.
  exact (proj1 (generate_job_no_push true false c2_state c2_template eq_refl
                  ltac:(simpl; lia))).
Defined.

(** X8: a pushed job without [flush] keeps the existing jobs, and its
    fan-out sets [new_work_event] only: every client's [new_block_event] is
    left as it was. *)
Theorem generate_job_push_no_flush (nb : bool) (s : netmon) (g : gbt) :
  last_gbt s = Some g -> 0 <= job_counter s < 2 ^ 32 ->
  let jid := job_id_of (job_counter s) in
  let r := generate_job true false nb s in
  jobs r.2 = <[jid := build_job jid g s]> (jobs s) /\ latest_job r.2 = Some jid /\
  map (fun ic => (ic.1, new_block_event ic.2)) (clients r.2) =
    map (fun ic => (ic.1, new_block_event ic.2)) (clients s).
Proof.
  intros Hg Hc jid r.
  pose proof (signal_clients_keeps_other false (clients s)) as Hk. simpl in Hk.
  unfold r, jid, job_id_of, generate_job. rewrite Hg, (pack_I_in_range _ Hc). simpl.
  unfold install_job, set_job_table. simpl.
  destruct (signal_clients false (clients s)) as [[|e] cls] eqn:E; simpl in *;
    destruct nb; simpl; repeat split; exact Hk.
Qed.

Lemma generate_job_push_no_flush_witness :
  latest_job (generate_job true false false c2_state).2 = Some (job_id_of 0).
Proof.
  exact (proj1 (proj2 (generate_job_push_no_flush false c2_state c2_template eq_refl
                         ltac:(simpl; lia)))).
Defined.

(** X9: [current_difficulty] changes only when a [new_block] job completes
    normally, and then holds the bits of the cached template. *)
Theorem generate_job_difficulty (p f nb : bool) (s : netmon) (o : outcome) (s' : netmon) :
  generate_job p f nb s = (o, s') ->
  (nb = true -> o = Normal -> forall g, last_gbt s = Some g ->
     current_difficulty s' = Some (gbt_bits g)) /\
  (nb = false \/ o <> Normal \/ last_gbt s = None ->
     current_difficulty s' = current_difficulty s).
Proof.
  unfold generate_job. intros H.
  destruct (last_gbt s) as [g0|] eqn:Eg.
  2: { inversion H; subst. split; [intros _ _ g Hg; discriminate | reflexivity]. }
  destruct (pack_I (job_counter s)) as [bs|].
  2: { inversion H; subst. split; [intros _ Hn; discriminate | reflexivity]. }
  destruct (if p then _ else _) as [o' cls].
  destruct o' as [|e], nb, p, f; inversion H; subst; simpl;
    (split; [intros Hnb Ho g' Hg'; first [discriminate | by inversion Hg']
            | intros Hd; first [reflexivity | destruct Hd as [Hd|[Hd|Hd]]; congruence]]).
Qed.

Lemma generate_job_difficulty_witness :
  current_difficulty (generate_job false false true c2_state).2 = Some "1d00ffff".
Proof.
  exact (proj1 (generate_job_difficulty false false true c2_state _ _ eq_refl)
           eq_refl eq_refl c2_template eq_refl).
Defined.

(** ** One tick of [_run] *)

Lemma check_height_jobs_clients count s :
  let s1 := (check_height count s).2 in
  jobs s1 = jobs s /\ clients s1 = clients s.
Proof.
  unfold check_height. destruct count as [h|].
  - case_bool_decide; simpl; auto.
  - destruct (down_connection (poll_connection s) s) as [o s'] eqn:E. simpl.
    unfold down_connection in E. destruct (poll_connection s) as [c|];
      [destruct (py_in c (live_connections s)), (py_in c (down_connections s))|];
      inversion E; auto.
Qed.

Lemma generate_job_no_push_keeps f nb s :
  let r := (generate_job false f nb s).2 in
  clients r = clients s /\ forall k, is_Some (jobs s !! k) -> is_Some (jobs r !! k).
Proof.
  unfold generate_job. destruct (last_gbt s); [|simpl; auto].
  destruct (pack_I (job_counter s)); [|simpl; auto].
  destruct f, nb; simpl; (split; [reflexivity|]);
    intros k Hk; apply lookup_insert_is_Some'; by right.
Qed.

Lemma getblocktemplate_no_new_block_keeps fetch s :
  let r := (getblocktemplate false fetch s).2 in
  clients r = clients s /\ forall k, is_Some (jobs s !! k) -> is_Some (jobs r !! k).
Proof.
  unfold getblocktemplate.
  destruct (poll_connection s) as [pc|], fetch as [bt|]; try (simpl; auto; fail).
  case_bool_decide; simpl; [|auto].
  apply (generate_job_no_push_keeps false false (set_last_gbt (Some bt) s)).
Qed.

(** X10: a tick that finds no new height never signals a client and never
    removes a job: the periodic refresh runs [generate_job] without [push]
    or [flush]. *)
Theorem run_tick_refresh_keeps (n_int : Z) (count_res : option Z) (fetch : option gbt)
    (i : Z) (s : netmon) :
  (check_height count_res s).1.2 = false ->
  let r := (run_tick n_int count_res fetch i s).2 in
  clients r = clients s /\ forall k, is_Some (jobs s !! k) -> is_Some (jobs r !! k).
Proof.
  intros Hb r. unfold r, run_tick.
  destruct (poll_connection s); [|simpl; auto].
  pose proof (check_height_jobs_clients count_res s) as [Hj Hc].
  destruct (check_height count_res s) as [[o b] s1]. simpl in *. subst b.
  destruct o; [|simpl; rewrite Hj, Hc; auto].
  destruct (n_int <=? i).
  - pose proof (getblocktemplate_no_new_block_keeps fetch s1) as [Hc' Hj'].
    destruct (getblocktemplate false fetch s1) as [[|e] s2]; simpl in *;
      (split; [congruence | intros k Hk; apply Hj'; by rewrite Hj]).
  - simpl. rewrite Hj, Hc. auto.
Qed.

(** A running pool: one job installed from [c2_template] at height 100, two
    clients. *)
Definition x10_state :=
  mk_netmon [c6_conn] [] (Some c6_conn) (Some c2_template) 1
    {["00000000" := mk_job "00000000" 100 c2_template []]} (Some "00000000") ∅
    c2_clients (Some 100) None.

(** The template after a new transaction entered the memory pool. *)
Definition x10_template := mk_gbt 100 5000010000 "1d00ffff" ["01000000"].

Lemma run_tick_refresh_keeps_witness :
  let r := (run_tick 75 (Some 100) (Some x10_template) 80 x10_state).2 in
  job_counter r = 2 /\ latest_job r = Some "01000000" /\
  clients r = c2_clients /\ is_Some (jobs r !! "00000000").
Proof.
  destruct (run_tick_refresh_keeps 75 (Some 100) (Some x10_template) 80 x10_state
              ltac:(vm_compute; reflexivity)) as [Hc Hj].
  cbv zeta in *. split; [vm_compute; reflexivity|]. split; [vm_compute; reflexivity|].
  split; [exact Hc|]. apply Hj. vm_compute. eexists; reflexivity.
Defined.





(** ** Job ids *)

Lemma hex_digit_code d :
  0 <= d < 16 ->
  nat_of_ascii (hex_digit d) = if d <? 10 then (48 + Z.to_nat d)%nat else (87 + Z.to_nat d)%nat.
Proof.
  intros Hd. unfold hex_digit.
  destruct (d <? 10) eqn:E; apply nat_ascii_embedding;
    [apply Z.ltb_lt in E | apply Z.ltb_ge in E]; lia.
Qed.

Lemma hex_digit_inj d e : 0 <= d < 16 -> 0 <= e < 16 -> hex_digit d = hex_digit e -> d = e.
Proof.
  intros Hd He Heq. apply (f_equal nat_of_ascii) in Heq.
  rewrite (hex_digit_code d Hd), (hex_digit_code e He) in Heq.
  destruct (d <? 10) eqn:E1, (e <? 10) eqn:E2;
    rewrite ?Z.ltb_lt, ?Z.ltb_ge in E1, E2; lia.
Qed.

Lemma byte_of_nibbles x y :
  0 <= x < 256 -> 0 <= y < 256 ->
  hex_digit (x / 16) = hex_digit (y / 16) -> hex_digit (x mod 16) = hex_digit (y mod 16) ->
  x = y.
Proof.
  intros Hx Hy H1 H2.
  apply hex_digit_inj in H1; [|split; [apply Z.div_pos; lia | apply Z.div_lt_upper_bound; lia]..].
  apply hex_digit_inj in H2; [|apply Z.mod_pos_bound; lia..].
  rewrite (Z.div_mod x 16), (Z.div_mod y 16) by lia. lia.
Qed.

Lemma bytes_determine n :
  0 <= n < 2 ^ 32 ->
  n = n mod 256 + 256 * ((n / 2 ^ 8) mod 256) + 2 ^ 16 * ((n / 2 ^ 16) mod 256)
      + 2 ^ 24 * ((n / 2 ^ 24) mod 256).
Proof. intros Hn. Z.div_mod_to_equations. lia. Qed.

Lemma byte_range n k : 0 <= (n / 2 ^ k) mod 256 < 256.
Proof. apply Z.mod_pos_bound. lia. Qed.

Lemma job_id_of_inj n m :
  0 <= n < 2 ^ 32 -> 0 <= m < 2 ^ 32 -> job_id_of n = job_id_of m -> n = m.
Proof.
  intros Hn Hm Heq. unfold job_id_of in Heq.
  rewrite (pack_I_in_range _ Hn), (pack_I_in_range _ Hm) in Heq. simpl in Heq.
  injection Heq as E1 E2 E3 E4 E5 E6 E7 E8.
  assert (B0 : n mod 256 = m mod 256)
    by (apply byte_of_nibbles; auto; apply Z.mod_pos_bound; lia).
  assert (B1 : (n / 2 ^ 8) mod 256 = (m / 2 ^ 8) mod 256)
    by (apply byte_of_nibbles; auto; apply byte_range).
  assert (B2 : (n / 2 ^ 16) mod 256 = (m / 2 ^ 16) mod 256)
    by (apply byte_of_nibbles; auto; apply byte_range).
  assert (B3 : (n / 2 ^ 24) mod 256 = (m / 2 ^ 24) mod 256)
    by (apply byte_of_nibbles; auto; apply byte_range).
  rewrite (bytes_determine n Hn), (bytes_determine m Hm). lia.
Qed.

Lemma job_id_of_length n : 0 <= n < 2 ^ 32 -> String.length (job_id_of n) = 8%nat.
Proof. intros Hn. unfold job_id_of. rewrite (pack_I_in_range _ Hn). reflexivity. Qed.

Lemma job_id_of_overflow n : 2 ^ 32 <= n -> job_id_of n = EmptyString.
Proof. intros Hn. unfold job_id_of. by rewrite pack_I_out_of_range. Qed.

(** ** The job table in reachable states *)

Definition job_tab (s : netmon) := (job_counter s, jobs s, latest_job s).

Lemma jobs_inv_tab s s' : job_tab s' = job_tab s -> jobs_inv s -> jobs_inv s'.
Proof.
  unfold job_tab. intros Heq. injection Heq as E1 E2 E3.
  unfold jobs_inv. by rewrite E1, E2, E3.
Qed.

Lemma down_connection_tab c s : job_tab (down_connection c s).2 = job_tab s.
Proof. unfold down_connection. by repeat case_match. Qed.

Lemma monitor_nodes_pass_tab pr s : job_tab (monitor_nodes_pass pr s).2 = job_tab s.
Proof. unfold monitor_nodes_pass. by repeat case_match. Qed.

Lemma check_height_tab res s : job_tab (check_height res s).2 = job_tab s.
Proof.
  unfold check_height. destruct res; [by case_bool_decide|].
  destruct (down_connection (poll_connection s) s) as [o s'] eqn:E. simpl.
  pose proof (down_connection_tab (poll_connection s) s) as G. by rewrite E in G.
Qed.

Lemma pack_I_Some_range n bs : pack_I n = Some bs -> 0 <= n < 2 ^ 32.
Proof.
  unfold pack_I. destruct ((0 <=? n) && (n <? 2 ^ 32)) eqn:E; [|discriminate].
  intros _. apply andb_true_iff in E as [E1 E2].
  apply Z.leb_le in E1. apply Z.ltb_lt in E2. lia.
Qed.

Lemma jobs_inv_install s r jid bt (base : gmap string job) :
  jobs_inv s -> 0 <= job_counter s < 2 ^ 32 -> jid = job_id_of (job_counter s) ->
  job_id bt = jid -> (base = jobs s \/ base = ∅) ->
  job_counter r = job_counter s + 1 -> jobs r = <[jid := bt]> base ->
  latest_job r = Some jid -> jobs_inv r.
Proof.
  intros [H0 [Hk Hl]] Hc Hjid Hbt Hbase Hctr Hjobs Hlat.
  unfold jobs_inv. rewrite Hctr, Hjobs, Hlat. split; [lia|split].
  - intros k j Hkj. apply lookup_insert_Some in Hkj as [[<- <-]|[Hne Hkj]].
    + split; [done|]. exists (job_counter s). repeat split; [lia..|done].
    + destruct Hbase as [->| ->].
      * destruct (Hk k j Hkj) as [Hid [n [Hn [Hn2 Hkn]]]].
        split; [done|]. exists n. repeat split; [lia..|done].
      * by rewrite lookup_empty in Hkj.
  - intros k Hk'. injection Hk' as <-. rewrite lookup_insert_eq. by eexists.
Qed.

Lemma generate_job_jobs_inv p f nb s : jobs_inv s -> jobs_inv (generate_job p f nb s).2.
Proof.
  intros Hinv. unfold generate_job.
  destruct (last_gbt s) as [g|] eqn:Hg; [|exact Hinv].
  destruct (pack_I (job_counter s)) as [bs|] eqn:Hp; [|exact Hinv].
  pose proof (pack_I_Some_range _ _ Hp) as Hc.
  assert (Hjid : hexlify bs = job_id_of (job_counter s)) by (unfold job_id_of; by rewrite Hp).
  destruct (if p then _ else _) as [o cls].
  destruct o, p, f, nb; simpl;
    (eapply (jobs_inv_install s _ (hexlify bs) (build_job (hexlify bs) g s));
     [exact Hinv | exact Hc | exact Hjid | reflexivity | idtac | reflexivity..];
     first [left; reflexivity | right; reflexivity]).
Qed.

Lemma getblocktemplate_jobs_inv nb fetch s :
  jobs_inv s -> jobs_inv (getblocktemplate nb fetch s).2.
Proof.
  intros Hinv. unfold getblocktemplate.
  destruct (poll_connection s) as [pc|], fetch as [bt|]; try exact Hinv.
  destruct (bool_decide _); destruct nb; simpl;
    first [apply generate_job_jobs_inv; exact Hinv | exact Hinv].
Qed.

Lemma aux_update_jobs_inv r1 r2 a s :
  jobs_inv s -> jobs_inv (aux_update r1 r2 a s).2.
Proof.
  intros Hinv. unfold aux_update. repeat case_match; simplify_eq/=; try exact Hinv;
  match goal with
  | H : generate_job ?p ?f ?nb ?s0 = (_, ?s2) |- jobs_inv ?s2 =>
      pose proof (generate_job_jobs_inv p f nb s0 Hinv) as G; rewrite H in G; exact G
  end.
Qed.

Lemma step_jobs_inv s s' : step s s' -> jobs_inv s -> jobs_inv s'.
Proof.
  intros Hst Hinv. destruct Hst as [c s o s' H|pr s o s' H|res s o b s' H|nb fetch s o s' H
    |p f nb s o s' H|r1 r2 a s o a' s' H|cls s].
  - apply (jobs_inv_tab s); [|done].
    pose proof (down_connection_tab c s) as G. by rewrite H in G.
  - apply (jobs_inv_tab s); [|done].
    pose proof (monitor_nodes_pass_tab pr s) as G. by rewrite H in G.
  - apply (jobs_inv_tab s); [|done].
    pose proof (check_height_tab res s) as G. by rewrite H in G.
  - pose proof (getblocktemplate_jobs_inv nb fetch s Hinv) as G. by rewrite H in G.
  - pose proof (generate_job_jobs_inv p f nb s Hinv) as G. by rewrite H in G.
  - pose proof (aux_update_jobs_inv r1 r2 a s Hinv) as G. by rewrite H in G.
  - exact Hinv.
Qed.

Lemma reachable_jobs_inv_gen prios cls s : reachable prios cls s -> jobs_inv s.
Proof.
  unfold reachable. intros Hr.
  assert (Hgen : forall x y, rtc step x y -> jobs_inv x -> jobs_inv y).
  { intros x y Hxy. induction Hxy as [x|x y z Hs _ IH]; [done|].
    intros Hx. apply IH. by eapply step_jobs_inv. }
  apply (Hgen _ _ Hr). unfold jobs_inv. simpl. split; [lia|split].
  - intros k j Hkj. by rewrite lookup_empty in Hkj.
  - discriminate.
Qed.

(** X12: job ids are eight characters long and distinct counters in range
    give distinct ids. *)
Theorem job_id_of_injective :
  (forall n m : Z, 0 <= n < 2 ^ 32 -> 0 <= m < 2 ^ 32 ->
     job_id_of n = job_id_of m -> n = m) /\
  (forall n : Z, 0 <= n < 2 ^ 32 -> String.length (job_id_of n) = 8%nat).
Proof. split; [exact job_id_of_inj | exact job_id_of_length]. Qed.

Lemma job_id_of_injective_witness :
  String.length (job_id_of 258) = 8%nat.
Proof. exact (proj2 job_id_of_injective 258 ltac:(lia)). Defined.

Definition x13_state := (getblocktemplate true (Some c2_template) c5_probed).2.

Lemma x13_state_reachable : reachable [5] c2_clients x13_state.
Proof.
  unfold reachable. eapply rtc_l.
  - apply (StepMonitor (fun _ => GetinfoAnswers) c5_cold_start
             (monitor_nodes_pass (fun _ => GetinfoAnswers) c5_cold_start).1 c5_probed).
    reflexivity.
  - eapply rtc_l; [|apply rtc_refl].
    apply (StepGbt true (Some c2_template) c5_probed
             (getblocktemplate true (Some c2_template) c5_probed).1).
    reflexivity.
Qed.

(** X13: in every reachable state the counter is non-negative, every stored
    job is stored under its own id, which is the id of an earlier counter
    value in range, and [latest_job] names a stored job. *)
Theorem reachable_jobs_inv prios cls s : reachable prios cls s -> jobs_inv s.
Proof. apply reachable_jobs_inv_gen. Qed.

Lemma reachable_jobs_inv_witness : reachable [5] c2_clients x13_state /\ jobs_inv x13_state.
Proof.
  split; [exact x13_state_reachable|].
  exact (reachable_jobs_inv [5] c2_clients x13_state x13_state_reachable).
Defined.

(** X14: in every reachable state no stored job has the id the next job
    will get, so installing a job never overwrites a stored one. *)
Theorem reachable_next_job_id_fresh prios cls s :
  reachable prios cls s -> jobs s !! job_id_of (job_counter s) = None.
Proof.
  intros Hr. destruct (reachable_jobs_inv_gen prios cls s Hr) as [H0 [Hk _]].
  destruct (jobs s !! job_id_of (job_counter s)) as [j|] eqn:E; [|done].
  destruct (Hk _ _ E) as [_ [n [Hn [Hn2 Heq]]]].
  destruct (Z.lt_ge_cases (job_counter s) (2 ^ 32)) as [Hlt|Hge].
  - apply job_id_of_inj in Heq; lia.
  - rewrite job_id_of_overflow in Heq by done.
    apply (f_equal String.length) in Heq. rewrite job_id_of_length in Heq by lia.
    discriminate.
Qed.

Lemma reachable_next_job_id_fresh_witness :
  reachable [5] c2_clients x13_state /\
  jobs x13_state !! job_id_of (job_counter x13_state) = None.
Proof.
  split; [exact x13_state_reachable|].
  exact (reachable_next_job_id_fresh [5] c2_clients x13_state x13_state_reachable).
Defined.

(** ** [MonitorAuxChain.update] *)

Lemma generate_job_merged_work p f nb s :
  merged_work (generate_job p f nb s).2 = merged_work s.
Proof. unfold generate_job. repeat case_match; simplify_eq/=; reflexivity. Qed.

Lemma generate_job_poll p f nb s :
  poll_connection (generate_job p f nb s).2 = poll_connection s.
Proof.
  pose proof (generate_job_pool p f nb s) as G. unfold pool_of in G.
  by injection G.
Qed.

(** X15: new aux work at a new aux height stores the work under its chain id,
    records height, target and chain id, and pushes a job through
    [generate_job(push=True, flush=self.flush)]; [work_restarts] grows by one
    only when that call returns normally. *)
Theorem aux_update_new_height (ab : auxblock) (h : Z) (a : auxmon) (s : netmon) :
  poll_connection s <> None ->
  merged_work s !! ab_chainid ab <>
    Some (mk_aux_work (ab_hash ab) (ab_target ab) (aux_coinserv a) (aux_self a)) ->
  aux_height a <> Some h ->
  let w := mk_aux_work (ab_hash ab) (ab_target ab) (aux_coinserv a) (aux_self a) in
  let g := generate_job true (aux_flush a) false
             (set_merged_work (<[ab_chainid ab := w]> (merged_work s)) s) in
  let r := aux_update (Some ab) (Some h) a s in
  r.1.1 = g.1 /\ r.2 = g.2 /\
  merged_work r.2 = <[ab_chainid ab := w]> (merged_work s) /\
  aux_height r.1.2 = Some h /\ aux_difficulty r.1.2 = Some (ab_target ab) /\
  aux_chain_id r.1.2 = Some (ab_chainid ab) /\ new_jobs r.1.2 = new_jobs a /\
  work_restarts r.1.2 = work_restarts a + (match g.1 with Normal => 1 | Raised _ => 0 end).
Proof.
  intros Hp Hm Hh. cbv zeta. unfold aux_update.
  destruct (poll_connection s); [|congruence].
  rewrite bool_decide_eq_true_2 by congruence.
  rewrite bool_decide_eq_true_2 by (simpl; congruence).
  pose proof (generate_job_merged_work true (aux_flush a) false
    (set_merged_work (<[ab_chainid ab :=
       mk_aux_work (ab_hash ab) (ab_target ab) (aux_coinserv a) (aux_self a)]>
       (merged_work s)) s)) as M.
  destruct (generate_job true (aux_flush a) false _) as [[|e] s2]; simpl in *;
    repeat split; auto; lia.
Qed.

Definition x15_aux := mk_auxmon 77 78 true None (Some 4) None 0 0.

Lemma aux_update_new_height_witness :
  poll_connection c6_state <> None /\
  merged_work c6_state !! ab_chainid c7_block <>
    Some (mk_aux_work (ab_hash c7_block) (ab_target c7_block) (aux_coinserv x15_aux)
            (aux_self x15_aux)) /\
  aux_height x15_aux <> Some 5 /\
  work_restarts (aux_update (Some c7_block) (Some 5) x15_aux c6_state).1.2 = 1.
Proof.
  split; [discriminate|]. split; [vm_compute; discriminate|]. split; [discriminate|].
  destruct (aux_update_new_height c7_block 5 x15_aux c6_state ltac:(discriminate)
              ltac:(vm_compute; discriminate) ltac:(discriminate))
    as (_ & _ & _ & _ & _ & _ & _ & Hw).
  rewrite Hw. vm_compute. reflexivity.
Defined.

Lemma aux_update_settled ab cnt a s :
  poll_connection s <> None ->
  merged_work s !! ab_chainid ab =
    Some (mk_aux_work (ab_hash ab) (ab_target ab) (aux_coinserv a) (aux_self a)) ->
  aux_chain_id a = Some (ab_chainid ab) ->
  aux_update (Some ab) cnt a s = (Normal, a, s).
Proof.
  intros Hp Hm Hc. destruct a as [self cs fl d ht ch wr nj]. simpl in *. subst ch.
  unfold aux_update. destruct (poll_connection s); [|congruence]. simpl.
  rewrite Hm, bool_decide_eq_false_2 by tauto. reflexivity.
Qed.

Lemma aux_update_after ab h a s :
  poll_connection s <> None ->
  let r := aux_update (Some ab) (Some h) a s in
  poll_connection r.2 <> None /\
  merged_work r.2 !! ab_chainid ab =
    Some (mk_aux_work (ab_hash ab) (ab_target ab) (aux_coinserv r.1.2) (aux_self r.1.2)) /\
  aux_chain_id r.1.2 = Some (ab_chainid ab).
Proof.
  intros Hp. cbv zeta. unfold aux_update.
  destruct (poll_connection s) eqn:Ep; [|congruence].
  case_bool_decide as Hd.
  - case_bool_decide as Hh.
    + pose proof (generate_job_merged_work true (aux_flush a) false
        (set_merged_work (<[ab_chainid ab :=
           mk_aux_work (ab_hash ab) (ab_target ab) (aux_coinserv a) (aux_self a)]>
           (merged_work s)) s)) as M.
      pose proof (generate_job_poll true (aux_flush a) false
        (set_merged_work (<[ab_chainid ab :=
           mk_aux_work (ab_hash ab) (ab_target ab) (aux_coinserv a) (aux_self a)]>
           (merged_work s)) s)) as P.
      destruct (generate_job true (aux_flush a) false _) as [[|e] s2]; simpl in *;
        (rewrite M, P, lookup_insert_eq; split; [congruence| split; reflexivity]).
    + simpl. rewrite Ep, lookup_insert_eq. split; [congruence|split; reflexivity].
  - simpl. rewrite Ep, <- Hd. split; [congruence|split; reflexivity].
Qed.

(** X16: once an update whose [getblockcount] succeeded has run (whatever
    branch it took, including the AttributeError one), running it again on
    the same aux block returns normally and changes nothing. *)
Theorem aux_update_repeat_noop (ab : auxblock) (h : Z) (cnt : option Z) (a : auxmon)
    (s : netmon) :
  poll_connection s <> None ->
  let r := aux_update (Some ab) (Some h) a s in
  aux_update (Some ab) cnt r.1.2 r.2 = (Normal, r.1.2, r.2).
Proof.
  intros Hp. cbv zeta.
  destruct (aux_update_after ab h a s Hp) as (P & M & C).
  apply aux_update_settled; assumption.
Qed.

Lemma aux_update_repeat_noop_witness :
  poll_connection c6_state <> None /\
  aux_update (Some c7_block) (Some 9)
    (aux_update (Some c7_block) (Some 5) x15_aux c6_state).1.2
    (aux_update (Some c7_block) (Some 5) x15_aux c6_state).2 =
  (Normal, (aux_update (Some c7_block) (Some 5) x15_aux c6_state).1.2,
   (aux_update (Some c7_block) (Some 5) x15_aux c6_state).2).
Proof.
  split; [discriminate|].
  exact (aux_update_repeat_noop c7_block 5 (Some 9) x15_aux c6_state ltac:(discriminate)).
Defined.

(** X17: the early exits of [update]: with no poll connection nothing
    happens; when [getauxblock] fails the exception leaves [update] with
    nothing changed; when [getblockcount] fails on new work only the aux
    chain id has been recorded. *)
Theorem aux_update_early_exits :
  (forall r1 r2 a s, poll_connection s = None -> aux_update r1 r2 a s = (Normal, a, s)) /\
  (forall r2 a s, poll_connection s <> None ->
     aux_update None r2 a s = (Raised RPCError, a, s)) /\
  (forall ab a s, poll_connection s <> None ->
     merged_work s !! ab_chainid ab <>
       Some (mk_aux_work (ab_hash ab) (ab_target ab) (aux_coinserv a) (aux_self a)) ->
     aux_update (Some ab) None a s =
       (Raised RPCError,
        set_aux_state (aux_difficulty a) (aux_height a) (Some (ab_chainid ab))
          (work_restarts a) (new_jobs a) a, s)).
Proof.
  split; [|split].
  - intros r1 r2 a s Hp. unfold aux_update. by rewrite Hp.
  - intros r2 a s Hp. unfold aux_update. by destruct (poll_connection s).
  - intros ab a s Hp Hm. unfold aux_update. destruct (poll_connection s); [|congruence].
    rewrite bool_decide_eq_true_2 by congruence. reflexivity.
Qed.

Lemma aux_update_early_exits_witness :
  aux_update (Some c7_block) None x15_aux c6_state =
    (Raised RPCError,
     set_aux_state None (Some 4) (Some 1) 0 0 x15_aux, c6_state).
Proof.
  exact (proj2 (proj2 aux_update_early_exits) c7_block x15_aux c6_state
           ltac:(discriminate) ltac:(vm_compute; discriminate)).
Defined.

(** ** [merged_work] across the methods *)

Lemma down_connection_merged_work c s :
  merged_work (down_connection c s).2 = merged_work s.
Proof. unfold down_connection. by repeat case_match. Qed.

Lemma monitor_nodes_pass_merged_work pr s :
  merged_work (monitor_nodes_pass pr s).2 = merged_work s.
Proof. unfold monitor_nodes_pass. by repeat case_match. Qed.

Lemma check_height_merged_work res s :
  merged_work (check_height res s).2 = merged_work s.
Proof.
  unfold check_height. destruct res; [by case_bool_decide|].
  destruct (down_connection (poll_connection s) s) as [o s'] eqn:E. simpl.
  pose proof (down_connection_merged_work (poll_connection s) s) as G. by rewrite E in G.
Qed.

Lemma getblocktemplate_merged_work nb fetch s :
  merged_work (getblocktemplate nb fetch s).2 = merged_work s.
Proof.
  unfold getblocktemplate.
  destruct (poll_connection s) as [pc|], fetch as [bt|]; try reflexivity.
  destruct (bool_decide _), nb; simpl; rewrite ?generate_job_merged_work; reflexivity.
Qed.

Lemma aux_update_merged_work r1 r2 a s :
  merged_work (aux_update r1 r2 a s).2 = merged_work s \/
  exists ab, r1 = Some ab /\ merged_work (aux_update r1 r2 a s).2 =
    <[ab_chainid ab := mk_aux_work (ab_hash ab) (ab_target ab) (aux_coinserv a) (aux_self a)]>
      (merged_work s).
Proof.
  unfold aux_update. repeat (case_match; simplify_eq/=); try (left; reflexivity);
    right; eexists; (split; [reflexivity|]);
    try reflexivity;
    match goal with H : generate_job _ _ _ _ = _ |- _ =>
      pose proof (f_equal (fun r => merged_work r.2) H) as Hm;
      simpl in Hm; rewrite generate_job_merged_work in Hm; rewrite <- Hm; reflexivity end.
Qed.

(** X18: no method ever removes an entry of [merged_work], and only
    [MonitorAuxChain.update] changes it, by writing the work it fetched
    under that work's chain id. *)
Theorem step_merged_work_grows s s' :
  step s s' ->
  (forall k, is_Some (merged_work s !! k) -> is_Some (merged_work s' !! k)) /\
  (merged_work s' = merged_work s \/
   exists r2 a ab o a', aux_update (Some ab) r2 a s = (o, a', s') /\
     merged_work s' = <[ab_chainid ab :=
       mk_aux_work (ab_hash ab) (ab_target ab) (aux_coinserv a) (aux_self a)]> (merged_work s)).
Proof.
  intros Hst.
  assert (Hsame : merged_work s' = merged_work s \/
   exists r2 a ab o a', aux_update (Some ab) r2 a s = (o, a', s') /\
     merged_work s' = <[ab_chainid ab :=
       mk_aux_work (ab_hash ab) (ab_target ab) (aux_coinserv a) (aux_self a)]> (merged_work s)).
  { destruct Hst as [c s o s' H|pr s o s' H|res s o b s' H|nb fetch s o s' H
      |p f nb s o s' H|r1 r2 a s o a' s' H|cls s].
    - left. pose proof (down_connection_merged_work c s) as G. by rewrite H in G.
    - left. pose proof (monitor_nodes_pass_merged_work pr s) as G. by rewrite H in G.
    - left. pose proof (check_height_merged_work res s) as G. by rewrite H in G.
    - left. pose proof (getblocktemplate_merged_work nb fetch s) as G. by rewrite H in G.
    - left. pose proof (generate_job_merged_work p f nb s) as G. by rewrite H in G.
    - destruct (aux_update_merged_work r1 r2 a s) as [G|(ab & -> & G)];
        rewrite H in G; simpl in G; [by left|].
      right. exists r2, a, ab, o, a'. split; assumption.
    - by left. }
  split; [|exact Hsame].
  intros k Hk. destruct Hsame as [-> | (r2 & a & ab & o & a' & _ & ->)]; [exact Hk|].
  apply lookup_insert_is_Some'. by right.
Qed.

Lemma step_merged_work_grows_witness :
  step c6_state (aux_update (Some c7_block) (Some 5) x15_aux c6_state).2 /\
  is_Some (merged_work (aux_update (Some c7_block) (Some 5) x15_aux c6_state).2
             !! ab_chainid c7_block).
Proof.
  assert (Hs : step c6_state (aux_update (Some c7_block) (Some 5) x15_aux c6_state).2).
  { apply (StepAux (Some c7_block) (Some 5) x15_aux c6_state
             (aux_update (Some c7_block) (Some 5) x15_aux c6_state).1.1
             (aux_update (Some c7_block) (Some 5) x15_aux c6_state).1.2).
    reflexivity. }
  split; [exact Hs|].
  destruct (step_merged_work_grows _ _ Hs) as [_ [Hm | (r2 & a & ab & o & a' & _ & Hm)]].
  - vm_compute. eexists. reflexivity.
  - vm_compute. eexists. reflexivity.
Defined.

(** ** [MonitorNetwork.__init__] *)

Lemma existsb_id_false (l : list bool) :
  existsb (fun enabled => enabled) l = false <-> Forall (fun e => e = false) l.
Proof.
  induction l as [|b l IH]; simpl; [split; auto|].
  rewrite Forall_cons, <- IH. destruct b; simpl; intuition congruence.
Qed.

(** X19: the constructor succeeds exactly when both configured addresses are
    valid, [main_coinservs] is given and non-empty, and [merged] is a list
    with no enabled coin; the monitor then starts with every configured
    server down, no poll connection, no template, counter 0 and no job. *)
Theorem monitor_network_init_ok (v : bool) (m : option (list Z)) (mg : option (list bool))
    (cls : list (Z * client)) (s : netmon) :
  monitor_network_init v m mg cls = inr s <->
  v = true /\
  (exists servs, m = Some servs /\ servs <> [] /\ s = init_netmon servs cls) /\
  (exists coins, mg = Some coins /\ Forall (fun e => e = false) coins).
Proof.
  unfold monitor_network_init. split.
  - destruct v; simpl; [|discriminate].
    destruct m as [[|p ps]|]; try discriminate.
    destruct mg as [coins|]; [|discriminate].
    destruct (existsb _ coins) eqn:E; [discriminate|].
    intros Hs. injection Hs as <-. split; [done|]. split.
    + exists (p :: ps). done.
    + exists coins. split; [done|]. by apply existsb_id_false.
  - intros (-> & (servs & -> & Hne & ->) & (coins & -> & Hc)). simpl.
    apply existsb_id_false in Hc. rewrite Hc.
    destruct servs; [congruence|reflexivity].
Qed.

Lemma monitor_network_init_ok_witness :
  monitor_network_init true (Some [1; 2]) (Some [false]) [] = inr (init_netmon [1; 2] []).
Proof.
  apply (monitor_network_init_ok true (Some [1; 2]) (Some [false]) [] (init_netmon [1; 2] [])).
  split; [reflexivity|]. split.
  - exists [1; 2]. split; [reflexivity|]. split; [discriminate|reflexivity].
  - exists [false]. split; [reflexivity|]. repeat constructor.
Defined.
